(** * mrtoct-pytorch: checkpoint bookkeeping, dataset listing and the
      training loop of [train.py] and [mrtoct/dataset.py]

    The Python sources are embedded shallowly.  Python [int] is [Z],
    a [str] holding a file name is a [string] of 8-bit characters, a
    raised exception is the [Raise] branch of [result].  Calls into
    torch, torchvision, nibabel and numpy are kept abstract: their
    effects are recorded in a call log and in an explicit world that is
    threaded through the code. *)

From Stdlib Require Import ZArith List String Ascii Bool Lia.
From Stdlib Require Import Sorting.Sorted Sorting.Permutation.
Import ListNotations.

Local Open Scope string_scope.
Local Open Scope Z_scope.

(** ** Exceptions and results *)

Inductive exn : Type :=
| IndexError
| ValueError
| ZeroDivisionError
| ImportError
| AxisError.

Inductive result (A : Type) : Type :=
| Ok (a : A)
| Raise (e : exn).

Arguments Ok {A} a.
Arguments Raise {A} e.

Definition rbind {A B : Type} (r : result A) (k : A -> result B) : result B :=
  match r with
  | Ok a => k a
  | Raise e => Raise e
  end.

Definition of_option {A : Type} (e : exn) (o : option A) : result A :=
  match o with
  | Some a => Ok a
  | None => Raise e
  end.

(** ** Python string operations used by the sources *)

Module Py.

(** [s.endswith(suffix)] *)
Fixpoint endswith (s suffix : string) : bool :=
  String.eqb s suffix ||
  match s with
  | EmptyString => false
  | String _ s' => endswith s' suffix
  end.

(** [s[:n]] for [0 <= n] *)
Fixpoint take (n : nat) (s : string) : string :=
  match n, s with
  | S n', String c s' => String c (take n' s')
  | _, _ => EmptyString
  end.

(** [s[:-k]] for a positive literal [k]: all but the last [k] characters,
    the empty string when [s] is shorter. *)
Definition drop_last (k : nat) (s : string) : string :=
  take (String.length s - k) s.

(** [s.split(sep)] for a one-character separator. *)
Fixpoint split (sep : ascii) (s : string) : list string :=
  match s with
  | EmptyString => [EmptyString]
  | String c s' =>
      if Ascii.eqb c sep then EmptyString :: split sep s'
      else match split sep s' with
           | p :: ps => String c p :: ps
           | [] => [String c EmptyString]
           end
  end.

(** [l[i]] for a non-negative literal index. *)
Definition index {A : Type} (l : list A) (i : nat) : result A :=
  of_option IndexError (nth_error l i).

(** [l[i]] for an [int] index: negative indices count from the end. *)
Definition getitem {A : Type} (l : list A) (i : Z) : result A :=
  let n := Z.of_nat (List.length l) in
  if (0 <=? i) && (i <? n) then index l (Z.to_nat i)
  else if (- n <=? i) && (i <? 0) then index l (Z.to_nat (n + i))
  else Raise IndexError.

(** Decimal digits. *)
Definition digit_of_ascii (c : ascii) : option Z :=
  let n := Z.of_N (N_of_ascii c) in
  if (48 <=? n) && (n <=? 57) then Some (n - 48) else None.

Definition ascii_of_digit (d : Z) : ascii :=
  ascii_of_N (Z.to_N (48 + d)).

(** The characters [int()] skips around a literal (ASCII range). *)
Definition is_space (c : ascii) : bool :=
  let n := Z.of_N (N_of_ascii c) in
  ((9 <=? n) && (n <=? 13)) || ((28 <=? n) && (n <=? 32)).

Fixpoint lstrip (s : string) : string :=
  match s with
  | String c s' => if is_space c then lstrip s' else s
  | EmptyString => EmptyString
  end.

Fixpoint all_space (s : string) : bool :=
  match s with
  | String c s' => is_space c && all_space s'
  | EmptyString => true
  end.

(** The digit part of an integer literal: decimal digits, single
    underscores between digits, then optional trailing white space.
    [seen] tells whether the previous character was a digit. *)
Fixpoint parse_digits (seen : bool) (acc : Z) (s : string) : option Z :=
  match s with
  | EmptyString => if seen then Some acc else None
  | String c s' =>
      match digit_of_ascii c with
      | Some d => parse_digits true (10 * acc + d) s'
      | None =>
          if seen then
            if Ascii.eqb c "_" then parse_digits false acc s'
            else if all_space s then Some acc else None
          else None
      end
  end.

(** [int(s)] on a [str], base 10. *)
Definition int (s : string) : result Z :=
  of_option ValueError
    match lstrip s with
    | String c r =>
        if Ascii.eqb c "+" then parse_digits false 0 r
        else if Ascii.eqb c "-" then option_map Z.opp (parse_digits false 0 r)
        else parse_digits false 0 (String c r)
    | EmptyString => None
    end.

(** [str(n)] for [0 <= n], most significant digit first.  [fuel] bounds
    the number of digits. *)
Fixpoint decimal_fuel (fuel : nat) (n : Z) : string :=
  match fuel with
  | O => EmptyString
  | S f =>
      if n <? 10 then String (ascii_of_digit n) EmptyString
      else decimal_fuel f (n / 10) ++ String (ascii_of_digit (n mod 10)) EmptyString
  end.

Definition decimal (n : Z) : string :=
  decimal_fuel (S (Z.to_nat (Z.log2 n))) n.

Fixpoint zeros (k : nat) : string :=
  match k with
  | O => EmptyString
  | S k' => String "0" (zeros k')
  end.

(** [f'{n:05d}']: sign first, then zeros up to a total width of five. *)
Definition format_05d (n : Z) : string :=
  let ds := decimal (Z.abs n) in
  if n <? 0 then String "-" (zeros (4 - String.length ds) ++ ds)
  else zeros (5 - String.length ds) ++ ds.

(** [a % b] on integers. *)
Definition mod_ (a b : Z) : result Z :=
  if b =? 0 then Raise ZeroDivisionError else Ok (a mod b).

(** [os.path.join(a, b)] on POSIX. *)
Definition startswith_slash (b : string) : bool :=
  match b with
  | String c _ => Ascii.eqb c "/"
  | EmptyString => false
  end.

Definition os_path_join (a b : string) : string :=
  if startswith_slash b then b
  else if String.eqb a "" || endswith a "/" then a ++ b
  else a ++ String "/" b.

(** [l.sort()] on a list of [str]: insertion into the ascending order of
    code points. *)
Fixpoint insert (x : string) (l : list string) : list string :=
  match l with
  | [] => [x]
  | y :: l' => if String.leb x y then x :: l else y :: insert x l'
  end.

Fixpoint sort (l : list string) : list string :=
  match l with
  | [] => []
  | x :: l' => insert x (sort l')
  end.

End Py.

(** ** Predicates on strings used to state the facts below *)

(** No character of [s] is [sep]. *)
Fixpoint free_of (sep : ascii) (s : string) : bool :=
  match s with
  | EmptyString => true
  | String c s' => negb (Ascii.eqb c sep) && free_of sep s'
  end.

Definition is_digit (c : ascii) : bool :=
  match Py.digit_of_ascii c with Some _ => true | None => false end.

Fixpoint all_digits (s : string) : bool :=
  match s with
  | EmptyString => true
  | String c s' => is_digit c && all_digits s'
  end.

(** The number a digit string denotes, continuing from [acc]. *)
Fixpoint value_from (acc : Z) (s : string) : Z :=
  match s with
  | EmptyString => acc
  | String c s' =>
      match Py.digit_of_ascii c with
      | Some d => value_from (10 * acc + d) s'
      | None => acc
      end
  end.

Definition value (s : string) : Z := value_from 0 s.

(** The order of [str]. *)
Definition str_le (s t : string) : Prop := String.leb s t = true.

(** ** train.py: file names *)

(** [fmt_fname(prefix, ext, step, chckpt_path)] *)
Definition fmt_fname (prefix ext : string) (step : Z) (chckpt_path : string) : string :=
  Py.os_path_join chckpt_path (prefix ++ "-" ++ Py.format_05d step ++ "." ++ ext).

(** [int(f[:-3].split('-')[1])], the step that [restore_checkpoint] reads
    from the directory entry [f]. *)
Definition parse_step (f : string) : result Z :=
  rbind (Py.index (Py.split "-" (Py.drop_last 3 f)) 1) Py.int.

(** A checkpoint name that [restore_checkpoint] can read: the prefix, a
    dash, the step zero-padded to five digits, and [.pt]. *)
Definition checkpoint_name (n : Z) : string :=
  "model-" ++ Py.format_05d n ++ ".pt".

(** The entries [restore_checkpoint] keeps. *)
Definition is_checkpoint (f : string) : bool := Py.endswith f ".pt".

(** ** train.py: the world the script runs in *)

(** Criteria of [torch.nn]; [train.py] imports [L1Loss]. *)
Inductive criterion : Type :=
| L1Loss
| MSELoss
| BCELoss.

(** A value produced under autograd remembers how it was computed. *)
Inductive node (tensor weights : Type) : Type :=
| Data (t : tensor)
| Forward (w : weights) (x : node tensor weights)
| Criterion (c : criterion) (output target : node tensor weights).

Arguments Data {tensor weights} t.
Arguments Forward {tensor weights} w x.
Arguments Criterion {tensor weights} c output target.

Inductive message (tensor weights : Type) : Type :=
| MsgLoss (loss : node tensor weights)
| MsgSavedCheckpoint
| MsgRestoredCheckpoint (f : string).

Arguments MsgLoss {tensor weights} loss.
Arguments MsgSavedCheckpoint {tensor weights}.
Arguments MsgRestoredCheckpoint {tensor weights} f.

(** Calls that leave the script, in the order they are made. *)
Inductive call (tensor weights : Type) : Type :=
| LoadStateDict (path : string)
| Print (step : Z) (m : message tensor weights)
| ZeroGrad
| Backward (loss : node tensor weights)
| OptimizerStep
| TorchSave (w : weights) (path : string)
| SaveImage (images : list (node tensor weights)) (path : string).

Arguments LoadStateDict {tensor weights} path.
Arguments Print {tensor weights} step m.
Arguments ZeroGrad {tensor weights}.
Arguments Backward {tensor weights} loss.
Arguments OptimizerStep {tensor weights}.
Arguments TorchSave {tensor weights} w path.
Arguments SaveImage {tensor weights} images path.

Record world (tensor weights opt_state gradient : Type) : Type := World {
  model : weights;
  optimizer : opt_state;
  grad : gradient;
  log : list (call tensor weights)
}.

Arguments World {tensor weights opt_state gradient}.
Arguments model {tensor weights opt_state gradient} w.
Arguments optimizer {tensor weights opt_state gradient} w.
Arguments grad {tensor weights opt_state gradient} w.
Arguments log {tensor weights opt_state gradient} w.

Record args : Type := Args {
  cuda : bool;
  log_steps : Z;
  save_steps : Z;
  checkpoint_path : string
}.

(** How far a run of [main] has come. *)
Inductive run (W : Type) : Type :=
| Returned (w : W)
| Raised (e : exn) (w : W)
| Running (epoch : nat) (step : Z) (w : W).

Arguments Returned {W} w.
Arguments Raised {W} e w.
Arguments Running {W} epoch step w.

Section Train.

Variables tensor weights opt_state gradient : Type.

(** The directory listing, [torch.load], autograd and Adam are outside the
    repository. *)
Variable os_listdir : string -> list string.
Variable torch_load : string -> result weights.
Variable grad_zero : gradient.
Variable grad_add : gradient -> gradient -> gradient.
Variable autograd : node tensor weights -> gradient.
Variable adam : opt_state -> weights -> gradient -> opt_state * weights.

(** The batches the [DataLoader] yields in each pass over the data. *)
Variable loader : nat -> list (tensor * tensor).

Abbreviation World' := (world tensor weights opt_state gradient).
Abbreviation Node := (node tensor weights).

(** State and exceptions. *)
Definition M (A : Type) : Type := World' -> result A * World'.

Definition ret {A : Type} (a : A) : M A := fun w => (Ok a, w).

Definition bind {A B : Type} (m : M A) (k : A -> M B) : M B :=
  fun w =>
    match m w with
    | (Ok a, w') => k a w'
    | (Raise e, w') => (Raise e, w')
    end.

Definition lift {A : Type} (r : result A) : M A := fun w => (r, w).

Definition get_model : M weights := fun w => (Ok (model w), w).

Definition emit (c : call tensor weights) : M unit :=
  fun w => (Ok tt, World (model w) (optimizer w) (grad w) (log w ++ [c])).

Notation "x <- m ;; k" := (bind m (fun x => k))
  (at level 61, m at next level, right associativity).
Notation "m ;; k" := (bind m (fun _ => k))
  (at level 61, right associativity).

Definition log_msg (step : Z) (m : message tensor weights) : M unit :=
  emit (Print step m).

Definition load_state_dict (sd : weights) (path : string) : M unit :=
  fun w => (Ok tt, World sd (optimizer w) (grad w) (log w ++ [LoadStateDict path])).

Definition zero_grad : M unit :=
  fun w => (Ok tt, World (model w) (optimizer w) grad_zero (log w ++ [ZeroGrad])).

Definition backward (loss : Node) : M unit :=
  fun w => (Ok tt, World (model w) (optimizer w) (grad_add (grad w) (autograd loss))
                         (log w ++ [Backward loss])).

Definition optimizer_step : M unit :=
  fun w =>
    let (o, m) := adam (optimizer w) (model w) (grad w) in
    (Ok tt, World m o (grad w) (log w ++ [OptimizerStep])).

Definition save_model (step : Z) (checkpoint_path : string) : M unit :=
  m <- get_model ;;
  emit (TorchSave m (fmt_fname "model" ".pt" step checkpoint_path)) ;;
  log_msg step MsgSavedCheckpoint.

Definition save_results (tensors : list Node) (step : Z) (checkpoint_path : string) : M unit :=
  emit (SaveImage tensors (fmt_fname "images" ".jpg" step checkpoint_path)).

Definition restore_checkpoint (checkpoint_path : string) : M Z :=
  let chkpts := Py.sort (filter (fun f => Py.endswith f ".pt") (os_listdir checkpoint_path)) in
  if (0 <? List.length chkpts)%nat then
    f <- lift (Py.index chkpts 0) ;;
    step <- lift (parse_step f) ;;
    let path := Py.os_path_join checkpoint_path f in
    sd <- lift (torch_load path) ;;
    load_state_dict sd path ;;
    log_msg step (MsgRestoredCheckpoint f) ;;
    ret step
  else ret 0.

(** The body of [for inputs, targets in loader]; the result is the value
    of [step] after [step += 1].  Moving a batch to the GPU under
    [args.cuda] leaves its value as it is and makes no call that is
    logged here. *)
Definition train_iteration (a : args) (batch : tensor * tensor) (step : Z) : M Z :=
  let inputs : Node := Data (fst batch) in
  let targets : Node := Data (snd batch) in
  m <- get_model ;;
  let outputs := Forward m inputs in
  zero_grad ;;
  let loss := Criterion L1Loss outputs targets in
  backward loss ;;
  optimizer_step ;;
  r <- lift (Py.mod_ step (log_steps a)) ;;
  (if r =? 0 then
     log_msg step (MsgLoss loss) ;;
     save_results [inputs; outputs; targets] step (checkpoint_path a)
   else ret tt) ;;
  r' <- lift (Py.mod_ step (save_steps a)) ;;
  (if r' =? 0 then save_model step (checkpoint_path a) else ret tt) ;;
  ret (step + 1).

Fixpoint for_loop (a : args) (batches : list (tensor * tensor)) (step : Z) : M Z :=
  match batches with
  | [] => ret step
  | b :: bs => step' <- train_iteration a b step ;; for_loop a bs step'
  end.

(** [while True:] unrolled [fuel] times from pass number [epoch]. *)
Fixpoint while_true (fuel : nat) (a : args) (epoch : nat) (step : Z) (w : World') : run World' :=
  match fuel with
  | O => Running epoch step w
  | S fuel' =>
      match for_loop a (loader epoch) step w with
      | (Ok step', w') => while_true fuel' a (S epoch) step' w'
      | (Raise e, w') => Raised e w'
      end
  end.

(** [main(args)] from a freshly built model: restore, then loop.  The
    checkpoint directory is created when missing, in which case its
    listing is empty; the datasets and the [DataLoader] are represented
    by the batches [loader] yields. *)
Definition main (fuel : nat) (a : args) (w : World') : run World' :=
  match restore_checkpoint (checkpoint_path a) w with
  | (Ok step, w') => while_true fuel a O step w'
  | (Raise e, w') => Raised e w'
  end.

(** What one call sequence wrote to disk. *)
Definition checkpoint_writes (l : list (call tensor weights)) : list string :=
  flat_map (fun c => match c with TorchSave _ p => [p] | _ => [] end) l.

Definition image_writes (l : list (call tensor weights)) : list string :=
  flat_map (fun c => match c with SaveImage _ p => [p] | _ => [] end) l.

(** The loss node one iteration builds from a batch and the weights it
    starts with. *)
Definition iteration_loss (batch : tensor * tensor) (w : World') : node tensor weights :=
  Criterion L1Loss (Forward (model w) (Data (fst batch))) (Data (snd batch)).

(** The calls one iteration makes when the step is due for logging. *)
Definition log_calls (a : args) (batch : tensor * tensor) (step : Z) (w : World')
  : list (call tensor weights) :=
  if step mod log_steps a =? 0 then
    [Print step (MsgLoss (iteration_loss batch w));
     SaveImage [Data (fst batch); Forward (model w) (Data (fst batch)); Data (snd batch)]
       (fmt_fname "images" ".jpg" step (checkpoint_path a))]
  else [].

(** The calls one iteration makes when the step is due for a checkpoint;
    [m] holds the weights after the optimizer step. *)
Definition save_calls (a : args) (step : Z) (m : weights) : list (call tensor weights) :=
  if step mod save_steps a =? 0 then
    [TorchSave m (fmt_fname "model" ".pt" step (checkpoint_path a));
     Print step MsgSavedCheckpoint]
  else [].

(** Calls that only print or write a file. *)
Definition is_output (c : call tensor weights) : Prop :=
  match c with
  | Print _ _ | TorchSave _ _ | SaveImage _ _ => True
  | _ => False
  end.

End Train.

Arguments ret {tensor weights opt_state gradient A} a _.
Arguments restore_checkpoint {tensor weights opt_state gradient}
  os_listdir torch_load checkpoint_path _.
Arguments save_model {tensor weights opt_state gradient} step checkpoint_path _.
Arguments save_results {tensor weights opt_state gradient} tensors step checkpoint_path _.
Arguments train_iteration {tensor weights opt_state gradient}
  grad_zero grad_add autograd adam a batch step _.
Arguments for_loop {tensor weights opt_state gradient}
  grad_zero grad_add autograd adam a batches step _.
Arguments while_true {tensor weights opt_state gradient}
  grad_zero grad_add autograd adam loader fuel a epoch step w.
Arguments main {tensor weights opt_state gradient}
  os_listdir torch_load grad_zero grad_add autograd adam loader fuel a w.
Arguments checkpoint_writes {tensor weights} l.
Arguments iteration_loss {tensor weights opt_state gradient} batch w.
Arguments log_calls {tensor weights opt_state gradient} a batch step w.
Arguments save_calls {tensor weights} a step m.
Arguments is_output {tensor weights} c.
Arguments image_writes {tensor weights} l.

(** The number of batches the loader yields in [fuel] passes from pass
    number [epoch] on. *)
Fixpoint batches_seen {tensor : Type} (loader : nat -> list (tensor * tensor))
  (fuel epoch : nat) : nat :=
  match fuel with
  | O => O
  | S fuel' => (List.length (loader epoch) + batches_seen loader fuel' (S epoch))%nat
  end.

(** ** mrtoct/dataset.py *)

(** [is_nifti(filename)] *)
Definition is_nifti (filename : string) : bool :=
  existsb (fun ext => Py.endswith filename ext) [".nii"; ".nii.gz"].

(** A numpy array: its shape and the element at each index tuple. *)
Record ndarray (A : Type) : Type := NDArray {
  shape : list nat;
  item : list nat -> A
}.

Arguments NDArray {A} shape item.
Arguments shape {A} n.
Arguments item {A} n idx.

Module Np.

(** [np.transpose(a)]: the axes in reverse order. *)
Definition transpose {A : Type} (a : ndarray A) : ndarray A :=
  NDArray (rev (shape a)) (fun idx => item a (rev idx)).

(** The index tuple with position [axis] counted from the other end of
    an axis of length [n]. *)
Fixpoint mirror (axis n : nat) (idx : list nat) : list nat :=
  match idx, axis with
  | [], _ => []
  | i :: r, O => (n - 1 - i)%nat :: r
  | i :: r, S axis' => i :: mirror axis' n r
  end.

(** [np.flip(a, axis)] for a non-negative literal axis. *)
Definition flip {A : Type} (a : ndarray A) (axis : nat) : result (ndarray A) :=
  match nth_error (shape a) axis with
  | None => Raise AxisError
  | Some n => Ok (NDArray (shape a) (fun idx => item a (mirror axis n idx)))
  end.

End Np.

(** What [__getitem__] hands back: the array itself or whatever the
    transform made of it. *)
Inductive sample (A B : Type) : Type :=
| Volume (v : ndarray A)
| Transformed (b : B).

Arguments Volume {A B} v.
Arguments Transformed {A B} b.

Record NIFTI (A B : Type) : Type := MkNIFTI {
  transform : option (ndarray A -> B);
  filenames : list string
}.

Arguments MkNIFTI {A B} transform filenames.
Arguments transform {A B} n.
Arguments filenames {A B} n.

Section Dataset.

Variables voxel out : Type.

(** The directory listing and [nb.load(path).get_data()] are outside the
    repository. *)
Variable os_listdir : string -> list string.
Variable nb_load : string -> result (ndarray voxel).

(** [NIFTI.__init__(self, root, transform=None)] *)
Definition NIFTI_init (root : string) (transform : option (ndarray voxel -> out))
  : NIFTI voxel out :=
  MkNIFTI transform
    (Py.sort (map (fun f => Py.os_path_join root f)
                  (filter is_nifti (os_listdir root)))).

(** [NIFTI.__getitem__(self, index)] *)
Definition NIFTI_getitem (self : NIFTI voxel out) (index : Z) : result (sample voxel out) :=
  rbind (Py.getitem (filenames self) index) (fun path =>
  rbind (nb_load path) (fun volume =>
  let volume := Np.transpose volume in
  rbind (Np.flip volume 0) (fun volume =>
  rbind (Np.flip volume 1) (fun volume =>
  match transform self with
  | Some t => Ok (Transformed (t volume))
  | None => Ok (Volume volume)
  end)))).

(** [NIFTI.__len__(self)] *)
Definition NIFTI_len (self : NIFTI voxel out) : nat :=
  List.length (filenames self).

End Dataset.

Arguments NIFTI_init {voxel out} os_listdir root transform.
Arguments NIFTI_getitem {voxel out} nb_load self index.
Arguments NIFTI_len {voxel out} self.

(** The names bound at the top level of [mrtoct/dataset.py] once the
    module has run: its imports, [is_nifti] and [NIFTI]. *)
Definition dataset_module : list string :=
  ["os"; "nb"; "np"; "Dataset"; "is_nifti"; "NIFTI"].

(** [from <module> import <names>]: every name must be bound in the
    module. *)
Definition import_from (module : list string) (names : list string) : result unit :=
  if forallb (fun n => existsb (String.eqb n) module) names then Ok tt
  else Raise ImportError.

(** Line 13 of [train.py]: [from mrtoct.dataset import HDF5, Combined]. *)
Definition train_import_dataset : result unit :=
  import_from dataset_module ["HDF5"; "Combined"].
Example fmt_fname_5 :
  fmt_fname "model" ".pt" 5 "ckpt" = "ckpt/model-00005..pt".
Proof. reflexivity. Qed.

Example fmt_fname_123456 :
  fmt_fname "images" ".jpg" 123456 "out/" = "out/images-123456..jpg".
Proof. reflexivity. Qed.

Example format_05d_neg : Py.format_05d (-7) = "-0007".
Proof. reflexivity. Qed.

Example parse_step_ok : parse_step "model-00042.pt" = Ok 42.
Proof. reflexivity. Qed.

Example parse_step_saved : parse_step "model-00005..pt" = Raise ValueError.
Proof. reflexivity. Qed.

Example int_examples :
  Py.int " +1_000 " = Ok 1000 /\ Py.int "-12" = Ok (-12) /\
  Py.int "1__0" = Raise ValueError /\ Py.int "" = Raise ValueError /\
  Py.int "- 3" = Raise ValueError /\ Py.int "00005." = Raise ValueError.
Proof. repeat split. Qed.

(** ** Strings: suffixes, slices and splitting *)

Lemma append_nil_r (s : string) : s ++ "" = s.
Proof. induction s as [|c s IH]; simpl; [reflexivity | now rewrite IH]. Qed.

Lemma append_assoc (s t u : string) : (s ++ t) ++ u = s ++ (t ++ u).
Proof. induction s as [|c s IH]; simpl; [reflexivity | now rewrite IH]. Qed.

Lemma length_append (s t : string) :
  String.length (s ++ t) = (String.length s + String.length t)%nat.
Proof. induction s as [|c s IH]; simpl; [reflexivity | now rewrite IH]. Qed.

Lemma endswith_iff (s suffix : string) :
  Py.endswith s suffix = true <-> exists p, s = p ++ suffix.
Proof.
  induction s as [|c s IH].
  - change (Py.endswith "" suffix) with (String.eqb "" suffix || false).
    rewrite orb_false_r, String.eqb_eq. split.
    + intros <-. now exists "".
    + intros [[|c p] H]; simpl in H; [now symmetry | discriminate].
  - change (Py.endswith (String c s) suffix)
      with (String.eqb (String c s) suffix || Py.endswith s suffix).
    rewrite orb_true_iff, String.eqb_eq, IH. split.
    + intros [H | [p H]].
      * now exists "".
      * exists (String c p). simpl. now rewrite H.
    + intros [[|c' p] H]; simpl in H.
      * now left.
      * right. exists p. now inversion H.
Qed.

Lemma endswith_append (p suffix : string) : Py.endswith (p ++ suffix) suffix = true.
Proof. apply endswith_iff. now exists p. Qed.

Lemma take_append (s t : string) : Py.take (String.length s) (s ++ t) = s.
Proof. induction s as [|c s IH]; simpl; [now destruct t | now rewrite IH]. Qed.

Lemma drop_last_append (s t : string) : Py.drop_last (String.length t) (s ++ t) = s.
Proof.
  unfold Py.drop_last. rewrite length_append.
  replace (String.length s + String.length t - String.length t)%nat
    with (String.length s) by lia.
  apply take_append.
Qed.

Lemma split_not_nil (sep : ascii) (s : string) : Py.split sep s <> [].
Proof.
  induction s as [|c s IH]; simpl; [discriminate|].
  destruct (Ascii.eqb c sep); [discriminate|].
  destruct (Py.split sep s); [contradiction | discriminate].
Qed.

Lemma split_free (sep : ascii) (s : string) :
  free_of sep s = true -> Py.split sep s = [s].
Proof.
  induction s as [|c s IH]; simpl; [reflexivity|].
  intros [Hc Hs]%andb_prop. apply negb_true_iff in Hc.
  rewrite Hc, (IH Hs). reflexivity.
Qed.

Lemma split_at_sep (sep : ascii) (p q : string) :
  free_of sep p = true ->
  Py.split sep (p ++ String sep q) = p :: Py.split sep q.
Proof.
  induction p as [|c p IH]; simpl.
  - intros _. now rewrite Ascii.eqb_refl.
  - intros [Hc Hp]%andb_prop. apply negb_true_iff in Hc.
    rewrite Hc, (IH Hp). reflexivity.
Qed.

Lemma free_of_append (sep : ascii) (s t : string) :
  free_of sep (s ++ t) = free_of sep s && free_of sep t.
Proof.
  induction s as [|c s IH]; simpl; [reflexivity|].
  now rewrite IH, andb_assoc.
Qed.

(** ** Decimal digits: printing and reading *)

Lemma ascii_eqb_code (c d : ascii) :
  Ascii.eqb c d = (N_of_ascii c =? N_of_ascii d)%N.
Proof.
  destruct (Ascii.eqb_spec c d) as [->|Hne].
  - now rewrite N.eqb_refl.
  - symmetry. apply N.eqb_neq. intros H. apply Hne.
    rewrite <- (ascii_N_embedding c), <- (ascii_N_embedding d). now rewrite H.
Qed.

Lemma digit_code (c : ascii) (d : Z) :
  Py.digit_of_ascii c = Some d ->
  Z.of_N (N_of_ascii c) = 48 + d /\ 0 <= d <= 9.
Proof.
  unfold Py.digit_of_ascii.
  destruct (48 <=? Z.of_N (N_of_ascii c)) eqn:H1; cbn [andb]; [|discriminate].
  destruct (Z.of_N (N_of_ascii c) <=? 57) eqn:H2; [|discriminate].
  intros [= <-]. apply Z.leb_le in H1, H2. lia.
Qed.

Lemma digit_of_ascii_of_digit (d : Z) :
  0 <= d <= 9 -> Py.digit_of_ascii (Py.ascii_of_digit d) = Some d.
Proof.
  intros H. unfold Py.digit_of_ascii, Py.ascii_of_digit.
  rewrite N_ascii_embedding by lia.
  rewrite Z2N.id by lia.
  replace (48 <=? 48 + d) with true by (symmetry; apply Z.leb_le; lia).
  replace (48 + d <=? 57) with true by (symmetry; apply Z.leb_le; lia).
  cbn [andb]. f_equal. lia.
Qed.

Lemma is_digit_ascii_of_digit (d : Z) :
  0 <= d <= 9 -> is_digit (Py.ascii_of_digit d) = true.
Proof. intros H. unfold is_digit. now rewrite digit_of_ascii_of_digit. Qed.

Lemma digit_not_space (c : ascii) : is_digit c = true -> Py.is_space c = false.
Proof.
  unfold is_digit. destruct (Py.digit_of_ascii c) as [d|] eqn:Hd; [|discriminate].
  intros _. apply digit_code in Hd. unfold Py.is_space.
  apply orb_false_iff. split; apply andb_false_iff.
  - right. apply Z.leb_gt. lia.
  - right. apply Z.leb_gt. lia.
Qed.

Lemma digit_not_code (c : ascii) (k : N) :
  is_digit c = true -> (k < 48 \/ 57 < k < 256)%N ->
  Ascii.eqb c (ascii_of_N k) = false.
Proof.
  unfold is_digit. destruct (Py.digit_of_ascii c) as [d|] eqn:Hd; [|discriminate].
  intros _ Hk. apply digit_code in Hd.
  destruct (Ascii.eqb_spec c (ascii_of_N k)) as [->|]; [|reflexivity].
  rewrite N_ascii_embedding in Hd by lia. lia.
Qed.

Lemma all_digits_append (s t : string) :
  all_digits (s ++ t) = all_digits s && all_digits t.
Proof.
  induction s as [|c s IH]; simpl; [reflexivity|].
  now rewrite IH, andb_assoc.
Qed.

Lemma value_from_append (s t : string) (acc : Z) :
  all_digits s = true -> value_from acc (s ++ t) = value_from (value_from acc s) t.
Proof.
  revert acc. induction s as [|c s IH]; simpl; intros acc; [reflexivity|].
  unfold is_digit. destruct (Py.digit_of_ascii c); simpl; [|discriminate].
  apply IH.
Qed.

Lemma all_digits_zeros (k : nat) : all_digits (Py.zeros k) = true.
Proof. induction k; simpl; [reflexivity | assumption]. Qed.

Lemma value_from_zeros (k : nat) : value_from 0 (Py.zeros k) = 0.
Proof. induction k; simpl; [reflexivity | assumption]. Qed.

Lemma length_zeros (k : nat) : String.length (Py.zeros k) = k.
Proof. induction k; simpl; [reflexivity | now rewrite IHk]. Qed.

(** What [str(n)] looks like: digits only, at least one, denoting [n],
    and no longer than [n] needs. *)
Lemma decimal_fuel_spec (f : nat) (n : Z) :
  0 <= n < 2 ^ Z.of_nat (S f) ->
  let s := Py.decimal_fuel (S f) n in
  all_digits s = true /\ value s = n /\
  (0 < String.length s)%nat /\
  10 ^ Z.of_nat (String.length s - 1) <= Z.max n 1.
Proof.
  revert n. induction f as [|f IH]; intros n Hn.
  - assert (n < 10) by (change (2 ^ Z.of_nat 1) with 2 in Hn; lia).
    cbn [Py.decimal_fuel]. replace (n <? 10) with true by (symmetry; apply Z.ltb_lt; lia).
    cbn zeta. cbn [all_digits value value_from String.length].
    rewrite is_digit_ascii_of_digit, digit_of_ascii_of_digit by lia.
    repeat split; simpl; lia.
  - remember (S f) as f' eqn:Hf'.
    cbn [Py.decimal_fuel]. destruct (n <? 10) eqn:Hlt.
    + apply Z.ltb_lt in Hlt.
      cbn zeta. cbn [all_digits value value_from String.length].
      rewrite is_digit_ascii_of_digit, digit_of_ascii_of_digit by lia.
      repeat split; simpl; lia.
    + apply Z.ltb_ge in Hlt. subst f'.
      assert (Hq : 0 <= n / 10 < 2 ^ Z.of_nat (S f)).
      { split; [apply Z.div_pos; lia|].
        apply Z.div_lt_upper_bound; [lia|].
        replace (Z.of_nat (S (S f))) with (Z.succ (Z.of_nat (S f))) in Hn by lia.
        rewrite Z.pow_succ_r in Hn by lia. lia. }
      destruct (IH _ Hq) as (Hd & Hv & Hl & Hp).
      pose proof (Z.mod_pos_bound n 10 ltac:(lia)) as Hm.
      cbn zeta. rewrite all_digits_append, Hd. unfold value.
      rewrite value_from_append by assumption.
      fold (value (Py.decimal_fuel (S f) (n / 10))). rewrite Hv.
      rewrite length_append.
      cbn [all_digits value_from String.length].
      rewrite is_digit_ascii_of_digit, digit_of_ascii_of_digit by lia.
      repeat split; [| lia |].
      * pose proof (Z.div_mod n 10 ltac:(lia)). lia.
      * replace (String.length (Py.decimal_fuel (S f) (n / 10)) + 1 - 1)%nat
          with (S (String.length (Py.decimal_fuel (S f) (n / 10)) - 1)) by lia.
        rewrite Nat2Z.inj_succ, Z.pow_succ_r by lia.
        assert (1 <= n / 10) by (apply Z.div_le_lower_bound; lia).
        pose proof (Z.div_mod n 10 ltac:(lia)). lia.
Qed.

Lemma decimal_spec (n : Z) :
  0 <= n ->
  all_digits (Py.decimal n) = true /\ value (Py.decimal n) = n /\
  (0 < String.length (Py.decimal n))%nat /\
  10 ^ Z.of_nat (String.length (Py.decimal n) - 1) <= Z.max n 1.
Proof.
  intros Hn. apply decimal_fuel_spec. split; [assumption|].
  destruct (Z.eq_dec n 0) as [->|Hnz]; [reflexivity|].
  rewrite Nat2Z.inj_succ, Z2Nat.id by apply Z.log2_nonneg.
  apply Z.log2_spec. lia.
Qed.

Lemma parse_digits_all_digits (s : string) (seen : bool) (acc : Z) :
  all_digits s = true ->
  Py.parse_digits seen acc s =
  if seen || (0 <? String.length s)%nat then Some (value_from acc s) else None.
Proof.
  revert seen acc. induction s as [|c s IH]; intros seen acc; simpl.
  - intros _. now rewrite orb_false_r.
  - unfold is_digit. destruct (Py.digit_of_ascii c) as [d|]; [|discriminate].
    intros Hs. rewrite (IH true _ Hs). cbn [orb]. now rewrite orb_true_r.
Qed.

(** A character that is no digit, no underscore and no white space ends
    every integer literal in failure. *)
Lemma parse_digits_stray (s t : string) (c : ascii) (seen : bool) (acc : Z) :
  all_digits s = true ->
  is_digit c = false -> Ascii.eqb c "_" = false -> Py.is_space c = false ->
  Py.parse_digits seen acc (s ++ String c t) = None.
Proof.
  intros Hs Hc Hu Hsp. revert seen acc Hs.
  induction s as [|d s IH]; intros seen acc; cbn [append Py.parse_digits all_digits].
  - intros _. unfold is_digit in Hc.
    destruct (Py.digit_of_ascii c); [discriminate|].
    destruct seen; [|reflexivity].
    rewrite Hu. cbn [Py.all_space]. now rewrite Hsp.
  - unfold is_digit at 1. destruct (Py.digit_of_ascii d); [|discriminate].
    cbn [andb]. apply IH.
Qed.

Lemma int_unsigned (c : ascii) (r : string) :
  is_digit c = true ->
  Py.int (String c r) = of_option ValueError (Py.parse_digits false 0 (String c r)).
Proof.
  intros Hc. unfold Py.int. cbn [Py.lstrip].
  rewrite (digit_not_space _ Hc).
  change "+"%char with (ascii_of_N 43). change "-"%char with (ascii_of_N 45).
  rewrite !(digit_not_code c) by (assumption || lia). reflexivity.
Qed.

Lemma int_all_digits (s : string) :
  all_digits s = true -> (0 < String.length s)%nat -> Py.int s = Ok (value s).
Proof.
  destruct s as [|c r]; cbn [String.length]; [lia|].
  intros Hs _. pose proof Hs as Hs'. cbn [all_digits] in Hs'.
  apply andb_prop in Hs' as [Hc _].
  rewrite int_unsigned by assumption.
  rewrite parse_digits_all_digits by assumption. reflexivity.
Qed.

(** [f'{n:05d}'] of a step that is not negative. *)
Lemma format_05d_nonneg (n : Z) :
  0 <= n ->
  all_digits (Py.format_05d n) = true /\ value (Py.format_05d n) = n /\
  (0 < String.length (Py.format_05d n))%nat.
Proof.
  intros Hn. unfold Py.format_05d.
  replace (n <? 0) with false by (symmetry; apply Z.ltb_ge; lia).
  rewrite Z.abs_eq by assumption.
  destruct (decimal_spec n Hn) as (Hd & Hv & Hl & _).
  cbn zeta. rewrite all_digits_append, all_digits_zeros, Hd, length_append.
  unfold value. rewrite value_from_append by apply all_digits_zeros.
  rewrite value_from_zeros. fold (value (Py.decimal n)).
  repeat split; [assumption | lia].
Qed.

Lemma all_digits_free_of_dash (s : string) :
  all_digits s = true -> free_of "-" s = true.
Proof.
  induction s as [|c s IH]; cbn [all_digits free_of]; [reflexivity|].
  intros [Hc Hs]%andb_prop. rewrite (IH Hs), andb_true_r.
  change "-"%char with (ascii_of_N 45).
  rewrite (digit_not_code c) by (assumption || lia). reflexivity.
Qed.

(** ** Checkpoint file names *)

(** C1 (defect): the name under which [save_model] stores the weights of a
    step that is not negative is the directory entry
    [model-<step:05d>..pt], with two dots because [ext] already carries
    one; it ends in [.pt], so [restore_checkpoint] selects it, but reading
    its step back raises [ValueError] instead of giving the step. *)
Theorem saved_checkpoint_name_unreadable (step : Z) (path : string) :
  0 <= step ->
  let f := "model-" ++ Py.format_05d step ++ "..pt" in
  fmt_fname "model" ".pt" step path = Py.os_path_join path f /\
  Py.endswith f ".pt" = true /\
  parse_step f = Raise ValueError.
Proof.
  intros Hstep f.
  destruct (format_05d_nonneg step Hstep) as (Hd & _ & Hl).
  assert (Hf : f = ("model" ++ String "-" (Py.format_05d step ++ ".")) ++ ".pt").
  { unfold f. cbn [append]. now rewrite append_assoc. }
  split; [reflexivity|]. split.
  - rewrite Hf. apply endswith_append.
  - unfold parse_step. rewrite Hf.
    change 3%nat with (String.length ".pt"). rewrite drop_last_append.
    rewrite split_at_sep by reflexivity.
    rewrite split_free
      by (rewrite free_of_append, all_digits_free_of_dash by assumption; reflexivity).
    cbn [Py.index nth_error of_option rbind].
    destruct (Py.format_05d step) as [|c r] eqn:Hfmt; [cbn in Hl; lia|].
    pose proof Hd as Hc. cbn [all_digits] in Hc. apply andb_prop in Hc as [Hc _].
    cbn [append]. rewrite int_unsigned by assumption.
    change (String c (r ++ ".")) with (String c r ++ String "." "").
    rewrite parse_digits_stray by (assumption || reflexivity). reflexivity.
Qed.

Lemma saved_checkpoint_name_unreadable_witness :
  fmt_fname "model" ".pt" 1000 "ckpt" = Py.os_path_join "ckpt" "model-01000..pt" /\
  Py.endswith "model-01000..pt" ".pt" = true /\
  parse_step "model-01000..pt" = Raise ValueError.
Proof. apply (saved_checkpoint_name_unreadable 1000 "ckpt"). lia. Defined.

(** ** The order of [str] and [list.sort] *)

Lemma compare_refl (s : string) : String.compare s s = Eq.
Proof.
  induction s as [|c s IH]; simpl; [reflexivity|].
  unfold Ascii.compare. now rewrite N.compare_refl.
Qed.

Lemma compare_trans_lt (s t u : string) :
  String.compare s t = Lt -> String.compare t u = Lt -> String.compare s u = Lt.
Proof.
  revert t u. induction s as [|a s IH]; intros [|b t] [|c u]; simpl;
    try discriminate; try reflexivity.
  unfold Ascii.compare.
  destruct (N.compare_spec (N_of_ascii a) (N_of_ascii b)) as [Hab|Hab|Hab];
    try discriminate;
    destruct (N.compare_spec (N_of_ascii b) (N_of_ascii c)) as [Hbc|Hbc|Hbc];
    try discriminate; intros H1 H2.
  - rewrite Hab, Hbc, N.compare_refl. eauto.
  - rewrite Hab. now apply N.compare_lt_iff in Hbc as ->.
  - rewrite <- Hbc. now apply N.compare_lt_iff in Hab as ->.
  - assert (Hac : (N_of_ascii a < N_of_ascii c)%N) by lia.
    now apply N.compare_lt_iff in Hac as ->.
Qed.

Lemma str_le_refl (s : string) : str_le s s.
Proof. unfold str_le, String.leb. now rewrite compare_refl. Qed.

Lemma str_le_trans (s t u : string) : str_le s t -> str_le t u -> str_le s u.
Proof.
  unfold str_le, String.leb.
  destruct (String.compare s t) eqn:Hst; try discriminate;
    destruct (String.compare t u) eqn:Htu; try discriminate; intros _ _.
  - apply String.compare_eq_iff in Hst, Htu. subst. now rewrite compare_refl.
  - apply String.compare_eq_iff in Hst. subst. now rewrite Htu.
  - apply String.compare_eq_iff in Htu. subst. now rewrite Hst.
  - now rewrite (compare_trans_lt _ _ _ Hst Htu).
Qed.

Lemma leb_false_le (s t : string) : String.leb s t = false -> str_le t s.
Proof.
  intros H. destruct (String.leb_total s t) as [H'|H']; [congruence | exact H'].
Qed.

Lemma insert_perm (x : string) (l : list string) : Permutation (x :: l) (Py.insert x l).
Proof.
  induction l as [|y l IH]; simpl; [reflexivity|].
  destruct (String.leb x y); [reflexivity|].
  rewrite perm_swap. now apply perm_skip.
Qed.

Lemma sort_perm (l : list string) : Permutation l (Py.sort l).
Proof.
  induction l as [|x l IH]; simpl; [constructor|].
  rewrite <- insert_perm. now apply perm_skip.
Qed.

Lemma insert_sorted (x : string) (l : list string) :
  StronglySorted str_le l -> StronglySorted str_le (Py.insert x l).
Proof.
  induction 1 as [|y l Hl IH Hy]; simpl.
  - repeat constructor.
  - destruct (String.leb x y) eqn:Hxy.
    + constructor; [now constructor|].
      constructor; [exact Hxy|].
      eapply Forall_impl; [|exact Hy]. intros z. now apply str_le_trans.
    + constructor; [assumption|].
      eapply Permutation_Forall; [apply insert_perm|].
      constructor; [now apply leb_false_le | assumption].
Qed.

Lemma sort_sorted (l : list string) : StronglySorted str_le (Py.sort l).
Proof.
  induction l as [|x l IH]; simpl; [constructor | now apply insert_sorted].
Qed.

(** An ascending list is determined by its elements, so the result of
    [list.sort] does not depend on the algorithm. *)
Lemma sorted_perm_unique (l l' : list string) :
  StronglySorted str_le l -> StronglySorted str_le l' -> Permutation l l' -> l = l'.
Proof.
  intros Hl. revert l'. induction Hl as [|x l Hl IH Hx]; intros l' Hl' Hp.
  - now apply Permutation_nil in Hp.
  - destruct Hl' as [|y l' Hl' Hy].
    + now apply Permutation_sym, Permutation_nil in Hp.
    + assert (x = y) as <-.
      { apply String.leb_antisym.
        - assert (Hin : In y (x :: l))
            by (eapply Permutation_in; [symmetry; exact Hp | now left]).
          destruct Hin as [<-|Hin]; [apply str_le_refl|].
          now apply (proj1 (Forall_forall _ _) Hx).
        - assert (Hin : In x (y :: l'))
            by (eapply Permutation_in; [exact Hp | now left]).
          destruct Hin as [<-|Hin]; [apply str_le_refl|].
          now apply (proj1 (Forall_forall _ _) Hy). }
      f_equal. apply IH; [assumption|]. now apply Permutation_cons_inv in Hp.
Qed.

(** The first element after sorting is the least one. *)
Lemma sort_head_least (l : list string) (x : string) :
  In x l -> (forall y, In y l -> str_le x y) ->
  exists rest, Py.sort l = x :: rest.
Proof.
  intros Hin Hmin.
  pose proof (sort_sorted l) as Hs. pose proof (sort_perm l) as Hp.
  destruct (Py.sort l) as [|z rest] eqn:Hsort.
  - apply Permutation_sym, Permutation_nil in Hp. subst. contradiction.
  - exists rest. f_equal. symmetry. apply String.leb_antisym.
    + apply Hmin. eapply Permutation_in; [symmetry; exact Hp | now left].
    + assert (Hx : In x (z :: rest)) by (eapply Permutation_in; eauto).
      inversion Hs as [|? ? _ Hz]; subst.
      destruct Hx as [<-|Hx]; [apply str_le_refl|].
      now apply (proj1 (Forall_forall _ _) Hz).
Qed.

(** ** Well-formed checkpoint names and their order *)

Lemma value_from_shift (s : string) (acc : Z) :
  all_digits s = true ->
  value_from acc s = acc * 10 ^ Z.of_nat (String.length s) + value s /\
  0 <= value s < 10 ^ Z.of_nat (String.length s).
Proof.
  unfold value. revert acc.
  induction s as [|c s IH]; intros acc; cbn [all_digits value_from String.length].
  - intros _. change (10 ^ Z.of_nat 0) with 1. lia.
  - unfold is_digit. destruct (Py.digit_of_ascii c) as [d|] eqn:Hd; [|discriminate].
    cbn [andb]. intros Hs. apply digit_code in Hd.
    destruct (IH (10 * acc + d) Hs) as [E1 B]. destruct (IH (10 * 0 + d) Hs) as [E2 _].
    rewrite E1, E2, Nat2Z.inj_succ, Z.pow_succ_r by lia. nia.
Qed.

Lemma compare_digits (x y : string) :
  all_digits x = true -> all_digits y = true ->
  String.length x = String.length y ->
  String.compare x y = (value x ?= value y).
Proof.
  revert y. induction x as [|a x IH]; intros [|b y]; cbn [String.length];
    try discriminate; [reflexivity|].
  cbn [all_digits]. intros [Ha Hx]%andb_prop [Hb Hy]%andb_prop [= Hlen].
  unfold value. cbn [String.compare value_from].
  unfold is_digit in Ha, Hb.
  destruct (Py.digit_of_ascii a) as [da|] eqn:Hda; [|discriminate].
  destruct (Py.digit_of_ascii b) as [db|] eqn:Hdb; [|discriminate].
  apply digit_code in Hda, Hdb.
  destruct (value_from_shift x (10 * 0 + da) Hx) as [Ex Bx].
  destruct (value_from_shift y (10 * 0 + db) Hy) as [Ey By].
  rewrite Ex, Ey, <- Hlen in *.
  unfold Ascii.compare. rewrite <- N2Z.inj_compare.
  destruct (Z.compare_spec (Z.of_N (N_of_ascii a)) (Z.of_N (N_of_ascii b))) as [H|H|H].
  - rewrite (IH y Hx Hy Hlen).
    replace db with da by lia.
    symmetry. destruct (Z.compare_spec (value x) (value y)) as [E|E|E].
    + apply Z.compare_eq_iff. lia.
    + apply Z.compare_lt_iff. lia.
    + apply Z.compare_gt_iff. lia.
  - symmetry. apply Z.compare_lt_iff. nia.
  - symmetry. apply Z.compare_gt_iff. nia.
Qed.

Lemma compare_common_prefix (p x y : string) :
  String.compare (p ++ x) (p ++ y) = String.compare x y.
Proof.
  induction p as [|c p IH]; cbn [append String.compare]; [reflexivity|].
  unfold Ascii.compare. now rewrite N.compare_refl.
Qed.

Lemma compare_same_length (x y s t : string) :
  String.length x = String.length y ->
  String.compare (x ++ s) (y ++ t) =
  match String.compare x y with Eq => String.compare s t | c => c end.
Proof.
  revert y. induction x as [|a x IH]; intros [|b y]; cbn [String.length];
    try discriminate; [reflexivity|].
  intros [= Hlen]. cbn [append String.compare].
  destruct (Ascii.compare a b); [now apply IH | reflexivity | reflexivity].
Qed.

Lemma format_05d_length (n : Z) :
  0 <= n < 100000 -> String.length (Py.format_05d n) = 5%nat.
Proof.
  intros Hn. unfold Py.format_05d.
  replace (n <? 0) with false by (symmetry; apply Z.ltb_ge; lia).
  rewrite Z.abs_eq by lia. cbn zeta.
  destruct (decimal_spec n (proj1 Hn)) as (_ & _ & Hl & Hp).
  rewrite length_append, length_zeros.
  assert (String.length (Py.decimal n) <= 5)%nat; [|lia].
  destruct (Nat.le_gt_cases (String.length (Py.decimal n)) 5) as [|Hgt]; [assumption|].
  exfalso.
  assert (10 ^ 5 <= 10 ^ Z.of_nat (String.length (Py.decimal n) - 1))
    by (apply Z.pow_le_mono_r; lia).
  change (10 ^ 5) with 100000 in *. lia.
Qed.

Lemma checkpoint_name_le (a b : Z) :
  0 <= a < 100000 -> 0 <= b < 100000 ->
  (str_le (checkpoint_name a) (checkpoint_name b) <-> a <= b).
Proof.
  intros Ha Hb. unfold str_le, String.leb, checkpoint_name.
  rewrite compare_common_prefix.
  rewrite compare_same_length by now rewrite !format_05d_length.
  destruct (format_05d_nonneg a (proj1 Ha)) as (Da & Va & _).
  destruct (format_05d_nonneg b (proj1 Hb)) as (Db & Vb & _).
  rewrite compare_digits, Va, Vb, compare_refl
    by (assumption || now rewrite !format_05d_length).
  destruct (Z.compare_spec a b); split; intros; try lia; try reflexivity; discriminate.
Qed.

Lemma checkpoint_name_endswith (n : Z) : Py.endswith (checkpoint_name n) ".pt" = true.
Proof.
  unfold checkpoint_name. rewrite <- append_assoc. apply endswith_append.
Qed.

(** Reading the step back from a well-formed name. *)
Lemma parse_step_checkpoint_name (n : Z) :
  0 <= n -> parse_step (checkpoint_name n) = Ok n.
Proof.
  intros Hn. destruct (format_05d_nonneg n Hn) as (Hd & Hv & Hl).
  unfold parse_step, checkpoint_name.
  change ("model-" ++ Py.format_05d n ++ ".pt")
    with ("model" ++ String "-" (Py.format_05d n ++ ".pt")).
  replace ("model" ++ String "-" (Py.format_05d n ++ ".pt"))
    with (("model" ++ String "-" (Py.format_05d n)) ++ ".pt")
    by (cbn [append]; reflexivity).
  change 3%nat with (String.length ".pt"). rewrite drop_last_append.
  rewrite split_at_sep by reflexivity.
  rewrite split_free by now apply all_digits_free_of_dash.
  cbn [Py.index nth_error of_option rbind].
  rewrite int_all_digits by assumption. now rewrite Hv.
Qed.

(** ** Restoring a checkpoint *)

Section RestoreFacts.

Variables tensor weights opt_state gradient : Type.
Variable os_listdir : string -> list string.
Variable torch_load : string -> result weights.

Abbreviation World' := (world tensor weights opt_state gradient).

Lemma restore_checkpoint_unfold (path : string) (w : World') :
  restore_checkpoint os_listdir torch_load path w =
  match Py.sort (filter is_checkpoint (os_listdir path)) with
  | [] => (Ok 0, w)
  | f :: _ =>
      match parse_step f with
      | Raise e => (Raise e, w)
      | Ok step =>
          match torch_load (Py.os_path_join path f) with
          | Raise e => (Raise e, w)
          | Ok sd =>
              (Ok step,
               World sd (optimizer w) (grad w)
                 (log w ++ [LoadStateDict (Py.os_path_join path f);
                            Print step (MsgRestoredCheckpoint f)]))
          end
      end
  end.
Proof.
  unfold restore_checkpoint. fold is_checkpoint.
  destruct (Py.sort (filter is_checkpoint (os_listdir path))) as [|f rest];
    [reflexivity|].
  cbn [List.length Nat.ltb Nat.leb Py.index nth_error of_option].
  unfold bind, lift, load_state_dict, log_msg, emit, ret.
  destruct (parse_step f) as [step|e]; [|reflexivity].
  destruct (torch_load (Py.os_path_join path f)) as [sd|e]; [|reflexivity].
  cbn. now rewrite <- app_assoc.
Qed.

(** C8: when no entry of the checkpoint directory ends in [.pt],
    [restore_checkpoint] returns step 0 and leaves the world as it was:
    the model keeps its weights and no call is logged, so no
    [load_state_dict] took place. *)
Theorem restore_checkpoint_empty (path : string) (w : World') :
  (forall f, In f (os_listdir path) -> Py.endswith f ".pt" = false) ->
  restore_checkpoint os_listdir torch_load path w = (Ok 0, w).
Proof.
  intros Hnone. rewrite restore_checkpoint_unfold.
  replace (filter is_checkpoint (os_listdir path)) with (@nil string); [reflexivity|].
  symmetry. induction (os_listdir path) as [|f l IH]; [reflexivity|].
  cbn [filter]. unfold is_checkpoint at 1. rewrite (Hnone f) by now left.
  apply IH. intros g Hg. apply Hnone. now right.
Qed.

(** C2: [restore_checkpoint] keeps exactly the directory entries ending in
    [.pt], sorts them in ascending order and takes step and weights from
    the first of them; when every such entry is a well-formed name
    [model-<five digits>.pt], the step returned is the smallest one present
    and the weights loaded are those of that file. *)
Theorem restore_checkpoint_smallest (path : string) (w : World') (n0 : Z) :
  (forall f, In f (os_listdir path) -> Py.endswith f ".pt" = true ->
             exists n, 0 <= n < 100000 /\ f = checkpoint_name n) ->
  0 <= n0 < 100000 ->
  In (checkpoint_name n0) (os_listdir path) ->
  (forall n, 0 <= n < 100000 -> In (checkpoint_name n) (os_listdir path) -> n0 <= n) ->
  let chkpts := Py.sort (filter (fun f => Py.endswith f ".pt") (os_listdir path)) in
  (forall f, In f chkpts <-> In f (os_listdir path) /\ Py.endswith f ".pt" = true) /\
  StronglySorted str_le chkpts /\
  hd_error chkpts = Some (checkpoint_name n0) /\
  restore_checkpoint os_listdir torch_load path w =
  match torch_load (Py.os_path_join path (checkpoint_name n0)) with
  | Raise e => (Raise e, w)
  | Ok sd =>
      (Ok n0,
       World sd (optimizer w) (grad w)
         (log w ++ [LoadStateDict (Py.os_path_join path (checkpoint_name n0));
                    Print n0 (MsgRestoredCheckpoint (checkpoint_name n0))]))
  end.
Proof.
  intros Hwf Hn0 Hin Hmin chkpts.
  assert (Hmem : forall f, In f chkpts <->
                   In f (os_listdir path) /\ Py.endswith f ".pt" = true).
  { intros f. unfold chkpts. split; intros H.
    - apply (proj1 (filter_In (fun f => Py.endswith f ".pt") f (os_listdir path))).
      eapply Permutation_in; [symmetry; apply sort_perm | exact H].
    - eapply Permutation_in; [apply sort_perm|].
      now apply filter_In. }
  assert (Hhead : exists rest, chkpts = checkpoint_name n0 :: rest).
  { apply sort_head_least.
    - apply filter_In. split; [assumption | apply checkpoint_name_endswith].
    - intros y [Hy Hpt]%filter_In.
      destruct (Hwf y Hy Hpt) as (n & Hn & ->).
      apply checkpoint_name_le; try assumption. apply Hmin; assumption. }
  destruct Hhead as [rest Hrest].
  split; [exact Hmem|]. split; [apply sort_sorted|]. split; [now rewrite Hrest|].
  rewrite restore_checkpoint_unfold. fold chkpts in Hrest.
  change (Py.sort (filter is_checkpoint (os_listdir path))) with chkpts.
  rewrite Hrest, parse_step_checkpoint_name by lia. reflexivity.
Qed.

(** C10: a [.pt] entry without a dash-separated step is not guarded
    against.  With [model.pt] first among the sorted [.pt] entries the
    split has one piece and indexing raises [IndexError]; with
    [model-final.pt] the second piece is no integer literal and [int]
    raises [ValueError].  Nothing is loaded in either case. *)
Theorem restore_checkpoint_malformed (w : World') :
  hd_error (Py.sort (filter (fun f => Py.endswith f ".pt")
                            ["notes.txt"; "zeta-00001.pt"; "model.pt"]))
    = Some "model.pt" /\
  restore_checkpoint (fun _ => ["notes.txt"; "zeta-00001.pt"; "model.pt"])
    torch_load "ckpt" w = (Raise IndexError, w) /\
  restore_checkpoint (fun _ => ["model-final.pt"]) torch_load "ckpt" w
    = (Raise ValueError, w).
Proof.
  repeat split.
Qed.

End RestoreFacts.

Lemma restore_checkpoint_empty_witness :
  restore_checkpoint (tensor := unit) (opt_state := unit) (gradient := unit)
    (fun _ => ["images-00000..jpg"; "notes.txt"]) (fun p => Ok p) "ckpt"
    (World "fresh" tt tt [])
  = (Ok 0, World "fresh" tt tt []).
Proof.
  apply (restore_checkpoint_empty unit string unit unit
           (fun _ => ["images-00000..jpg"; "notes.txt"]) (fun p => Ok p)).
  intros f [<-|[<-|[]]]; reflexivity.
Defined.

Lemma checkpoint_name_inj (n : Z) (f : string) (k : Z) :
  0 <= n -> parse_step f = Ok k -> f = checkpoint_name n -> k = n.
Proof.
  intros Hn Hk ->. rewrite parse_step_checkpoint_name in Hk by assumption.
  congruence.
Qed.

Lemma restore_checkpoint_smallest_witness :
  restore_checkpoint (tensor := unit) (opt_state := unit) (gradient := unit)
    (fun _ => ["images-00000..jpg"; "model-02000.pt"; "model-01000.pt"; "model-10000.pt"])
    (fun p => Ok p) "ckpt" (World "fresh" tt tt [])
  = (Ok 1000,
     World "ckpt/model-01000.pt" tt tt
       [LoadStateDict "ckpt/model-01000.pt";
        Print 1000 (MsgRestoredCheckpoint "model-01000.pt")]).
Proof.
  refine (proj2 (proj2 (proj2
    (restore_checkpoint_smallest unit string unit unit
       (fun _ => ["images-00000..jpg"; "model-02000.pt"; "model-01000.pt"; "model-10000.pt"])
       (fun p => Ok p) "ckpt" (World "fresh" tt tt []) 1000 _ _ _ _)))).
  - intros f [<-|[<-|[<-|[<-|[]]]]] E; try discriminate E.
    + exists 2000. split; [lia | reflexivity].
    + exists 1000. split; [lia | reflexivity].
    + exists 10000. split; [lia | reflexivity].
  - lia.
  - simpl. auto.
  - intros n Hn [E|[E|[E|[E|[]]]]].
    + apply (f_equal parse_step) in E.
      rewrite parse_step_checkpoint_name in E by lia. discriminate E.
    + rewrite <- (checkpoint_name_inj n "model-02000.pt" 2000 (proj1 Hn) eq_refl E). lia.
    + rewrite <- (checkpoint_name_inj n "model-01000.pt" 1000 (proj1 Hn) eq_refl E). lia.
    + rewrite <- (checkpoint_name_inj n "model-10000.pt" 10000 (proj1 Hn) eq_refl E). lia.
Defined.

(** ** The training loop *)

Section TrainFacts.

Variables tensor weights opt_state gradient : Type.
Variable grad_zero : gradient.
Variable grad_add : gradient -> gradient -> gradient.
Variable autograd : node tensor weights -> gradient.
Variable adam : opt_state -> weights -> gradient -> opt_state * weights.
Variable loader : nat -> list (tensor * tensor).

Abbreviation World'' := (world tensor weights opt_state gradient).

(** One iteration, call by call. *)
Lemma train_iteration_unfold (a : args) (batch : tensor * tensor) (step : Z) (w : World'') :
  let loss := iteration_loss batch w in
  let g := grad_add grad_zero (autograd loss) in
  let om := adam (optimizer w) (model w) g in
  let core := [ZeroGrad; Backward loss; OptimizerStep] in
  train_iteration grad_zero grad_add autograd adam a batch step w =
  if log_steps a =? 0 then
    (Raise ZeroDivisionError, World (snd om) (fst om) g (log w ++ core))
  else if save_steps a =? 0 then
    (Raise ZeroDivisionError,
     World (snd om) (fst om) g (log w ++ core ++ log_calls a batch step w))
  else
    (Ok (step + 1),
     World (snd om) (fst om) g
       (log w ++ core ++ log_calls a batch step w ++ save_calls a step (snd om))).
Proof.
  intros loss g om core.
  unfold train_iteration, bind, get_model, zero_grad, backward, optimizer_step,
    lift, Py.mod_, log_calls, save_calls, save_model, save_results, log_msg,
    emit, ret, bind, get_model.
  cbn [model optimizer grad log].
  fold (iteration_loss batch w). fold loss. fold g. fold om.
  destruct om as [o m] eqn:Hom. cbn [fst snd model optimizer grad log].
  destruct (log_steps a =? 0).
  - unfold core. now rewrite <- !app_assoc.
  - destruct (step mod log_steps a =? 0);
      cbn [model optimizer grad log];
      destruct (save_steps a =? 0);
      try destruct (step mod save_steps a =? 0);
      cbn [model optimizer grad log]; unfold core;
      rewrite <- ?app_assoc; cbn [app]; rewrite ?app_nil_r; reflexivity.
Qed.

(** C4: with non-zero [log_steps] and [save_steps], an iteration of the
    training loop writes the model weights exactly when the step is a
    multiple of [save_steps] and the sample images exactly when it is a
    multiple of [log_steps]; at any other step it writes neither file. *)
Theorem periodic_checkpointing (a : args) (batch : tensor * tensor) (step : Z) (w : World'') :
  log_steps a <> 0 -> save_steps a <> 0 ->
  exists (w' : World'') (new : list (call tensor weights)),
    train_iteration grad_zero grad_add autograd adam a batch step w = (Ok (step + 1), w') /\
    log w' = (log w ++ new)%list /\
    ((save_steps a | step) ->
       checkpoint_writes new = [fmt_fname "model" ".pt" step (checkpoint_path a)]) /\
    (~ (save_steps a | step) -> checkpoint_writes new = []) /\
    ((log_steps a | step) ->
       image_writes new = [fmt_fname "images" ".jpg" step (checkpoint_path a)]) /\
    (~ (log_steps a | step) -> image_writes new = []).
Proof.
  intros Hlog Hsave.
  pose proof (train_iteration_unfold a batch step w) as E. cbn zeta in E.
  apply Z.eqb_neq in Hlog as Hlog', Hsave as Hsave'.
  rewrite Hlog', Hsave' in E.
  eexists. eexists. split; [exact E|]. split; [reflexivity|].
  unfold checkpoint_writes, image_writes.
  rewrite !flat_map_app. unfold log_calls, save_calls.
  rewrite <- !(Z.mod_divide step) by assumption.
  repeat split; intros H.
  - apply Z.eqb_eq in H. rewrite H. now destruct (step mod log_steps a =? 0).
  - apply Z.eqb_neq in H. rewrite H. now destruct (step mod log_steps a =? 0).
  - apply Z.eqb_eq in H. rewrite H. now destruct (step mod save_steps a =? 0).
  - apply Z.eqb_neq in H. rewrite H. now destruct (step mod save_steps a =? 0).
Qed.

(** C6: in every iteration the value handed to [backward] is the
    [L1Loss] criterion applied to the generator's output on the input
    batch and to the target batch; [zero_grad] comes before it, so the
    gradient the optimizer step consumes is that of this loss alone,
    whatever gradient the iteration started with; no other backward pass
    or criterion occurs in the iteration. *)
Theorem reconstruction_loss (a : args) (batch : tensor * tensor) (step : Z) (w : World'') :
  let loss := Criterion L1Loss (Forward (model w) (Data (fst batch))) (Data (snd batch)) in
  exists (r : result Z) (w' : World'') (rest : list (call tensor weights)),
    train_iteration grad_zero grad_add autograd adam a batch step w = (r, w') /\
    log w' = (log w ++ [ZeroGrad; Backward loss; OptimizerStep] ++ rest)%list /\
    (forall l, ~ In (Backward l) rest) /\
    ~ In ZeroGrad rest /\ ~ In OptimizerStep rest /\
    grad w' = grad_add grad_zero (autograd loss) /\
    (optimizer w', model w') =
      adam (optimizer w) (model w) (grad_add grad_zero (autograd loss)).
Proof.
  intros loss.
  pose proof (train_iteration_unfold a batch step w) as E. cbn zeta in E.
  fold loss in E. change (iteration_loss batch w) with loss in E.
  assert (Hlog : Forall (@is_output tensor weights) (log_calls a batch step w)).
  { unfold log_calls. destruct (step mod log_steps a =? 0); repeat constructor. }
  assert (Hsave : forall m, Forall (@is_output tensor weights) (save_calls a step m)).
  { intros m. unfold save_calls.
    destruct (step mod save_steps a =? 0); repeat constructor. }
  destruct (adam (optimizer w) (model w) (grad_add grad_zero (autograd loss)))
    as [o m] eqn:Hom.
  cbn [fst snd] in E.
  assert (Hrest : forall rest : list (call tensor weights), Forall (@is_output tensor weights) rest ->
            (forall l, ~ In (Backward l) rest) /\
            ~ In ZeroGrad rest /\ ~ In OptimizerStep rest).
  { intros rest Hr. rewrite Forall_forall in Hr.
    repeat split; repeat intro;
      match goal with Hin : In _ rest |- _ => exact (Hr _ Hin) end. }
  destruct (log_steps a =? 0); [|destruct (save_steps a =? 0)];
    eexists; eexists;
    [ exists [] | exists (log_calls a batch step w)
    | exists (log_calls a batch step w ++ save_calls a step m)%list ];
    (split; [exact E|]); cbn [log grad optimizer model];
    (split; [now rewrite ?app_nil_r|]).
  - destruct (Hrest [] (Forall_nil _)) as (H1 & H2 & H3). repeat split; assumption.
  - destruct (Hrest _ Hlog) as (H1 & H2 & H3). repeat split; assumption.
  - assert (Hall : Forall (@is_output tensor weights)
                     (log_calls a batch step w ++ save_calls a step m)%list)
      by (apply Forall_app; split; [exact Hlog | apply Hsave]).
    destruct (Hrest _ Hall) as (H1 & H2 & H3). repeat split; assumption.
Qed.

Lemma train_iteration_step (a : args) (batch : tensor * tensor) (step : Z) (w : World'') :
  match train_iteration grad_zero grad_add autograd adam a batch step w with
  | (Ok step', _) => step' = step + 1
  | (Raise _, _) => True
  end.
Proof.
  pose proof (train_iteration_unfold a batch step w) as E. cbn zeta in E.
  rewrite E. now destruct (log_steps a =? 0), (save_steps a =? 0).
Qed.

Lemma for_loop_step (a : args) (batches : list (tensor * tensor)) (step : Z) (w : World'') :
  match for_loop grad_zero grad_add autograd adam a batches step w with
  | (Ok step', _) => step' = step + Z.of_nat (List.length batches)
  | (Raise _, _) => True
  end.
Proof.
  revert step w. induction batches as [|b bs IH]; intros step w.
  - cbn. lia.
  - cbn [for_loop]. unfold bind at 1.
    pose proof (train_iteration_step a b step w) as Hb.
    destruct (train_iteration grad_zero grad_add autograd adam a b step w) as [[s|e] w1];
      [|exact I].
    specialize (IH s w1).
    destruct (for_loop grad_zero grad_add autograd adam a bs s w1) as [[s'|e] w2];
      [|exact I].
    cbn [List.length]. lia.
Qed.

Lemma while_true_progress (fuel : nat) (a : args) (epoch : nat) (step : Z) (w : World'') :
  match while_true grad_zero grad_add autograd adam loader fuel a epoch step w with
  | Returned _ => False
  | Raised _ _ => True
  | Running epoch' step' _ =>
      epoch' = (epoch + fuel)%nat /\
      step' = step + Z.of_nat (batches_seen loader fuel epoch)
  end.
Proof.
  revert epoch step w. induction fuel as [|fuel IH]; intros epoch step w.
  - cbn. split; lia.
  - cbn [while_true batches_seen].
    pose proof (for_loop_step a (loader epoch) step w) as Hf.
    destruct (for_loop grad_zero grad_add autograd adam a (loader epoch) step w)
      as [[s|e] w1]; [|exact I].
    specialize (IH (S epoch) s w1).
    destruct (while_true grad_zero grad_add autograd adam loader fuel a (S epoch) s w1);
      [exact IH | exact I | ].
    destruct IH as [-> ->]. split; lia.
Qed.

(** C7: [main] never returns.  However many passes of [while True] are
    unrolled, the run is still inside the loop or has raised; every inner
    iteration that completes leaves [step] exactly one higher, so after
    [fuel] passes [step] has grown by the number of batches seen. *)
Theorem training_loop_never_returns
  (os_listdir : string -> list string) (torch_load : string -> result weights)
  (fuel : nat) (a : args) (w : World'') :
  match main os_listdir torch_load grad_zero grad_add autograd adam loader fuel a w with
  | Returned _ => False
  | Raised _ _ => True
  | Running epoch step _ =>
      epoch = fuel /\
      exists w0 step0,
        restore_checkpoint os_listdir torch_load (checkpoint_path a) w = (Ok step0, w0) /\
        step = step0 + Z.of_nat (batches_seen loader fuel 0)
  end /\
  (forall batch step w0,
     match train_iteration grad_zero grad_add autograd adam a batch step w0 with
     | (Ok step', _) => step' = step + 1
     | (Raise _, _) => True
     end) /\
  (forall epoch step w0,
     match while_true grad_zero grad_add autograd adam loader fuel a epoch step w0 with
     | Returned _ => False
     | Raised _ _ => True
     | Running epoch' step' _ =>
         epoch' = (epoch + fuel)%nat /\
         step' = step + Z.of_nat (batches_seen loader fuel epoch)
     end).
Proof.
  split; [|split].
  - unfold main.
    destruct (restore_checkpoint os_listdir torch_load (checkpoint_path a) w)
      as [[step0|e] w0]; [|exact I].
    pose proof (while_true_progress fuel a 0 step0 w0) as H.
    destruct (while_true grad_zero grad_add autograd adam loader fuel a 0 step0 w0);
      [exact H | exact I |].
    destruct H as [-> ->]. split; [reflexivity|].
    exists w0, step0. split; reflexivity.
  - intros batch step w0. apply train_iteration_step.
  - intros epoch step w0. apply while_true_progress.
Qed.

End TrainFacts.

Lemma periodic_checkpointing_witness :
  exists (w' : world unit unit unit unit) (new : list (call unit unit)),
    train_iteration tt (fun _ _ => tt) (fun _ => tt) (fun _ _ _ => (tt, tt))
      (Args false 100 1000 "ckpt") (tt, tt) 2000 (World tt tt tt [])
      = (Ok (2000 + 1), w') /\
    log w' = (log (World tt tt tt []) ++ new)%list /\
    ((1000 | 2000) -> checkpoint_writes new = [fmt_fname "model" ".pt" 2000 "ckpt"]) /\
    (~ (1000 | 2000) -> checkpoint_writes new = []) /\
    ((100 | 2000) -> image_writes new = [fmt_fname "images" ".jpg" 2000 "ckpt"]) /\
    (~ (100 | 2000) -> image_writes new = []).
Proof.
  apply (periodic_checkpointing unit unit unit unit tt (fun _ _ => tt) (fun _ => tt)
           (fun _ _ _ => (tt, tt)) (Args false 100 1000 "ckpt") (tt, tt) 2000
           (World tt tt tt [])); simpl; lia.
Defined.

(** ** The NIFTI dataset *)

Section DatasetFacts.

Variables voxel out : Type.
Variable os_listdir : string -> list string.
Variable nb_load : string -> result (ndarray voxel).

Lemma is_nifti_iff (f : string) :
  is_nifti f = true <->
  (exists p, f = p ++ ".nii") \/ (exists p, f = p ++ ".nii.gz").
Proof.
  unfold is_nifti. cbn [existsb]. rewrite orb_false_r, orb_true_iff.
  now rewrite !endswith_iff.
Qed.

(** C5: the constructor keeps exactly the directory entries whose name
    ends in [.nii] or [.nii.gz], stores their paths under [root] in
    ascending order, and [__len__] is the number of such entries. *)
Theorem NIFTI_init_filenames (root : string) (t : option (ndarray voxel -> out)) :
  let self := NIFTI_init os_listdir root t in
  (forall f, is_nifti f = true <->
             (exists p, f = p ++ ".nii") \/ (exists p, f = p ++ ".nii.gz")) /\
  Permutation (filenames self)
    (map (fun f => Py.os_path_join root f) (filter is_nifti (os_listdir root))) /\
  (forall p, In p (filenames self) <->
             exists f, In f (os_listdir root) /\ is_nifti f = true /\
                       p = Py.os_path_join root f) /\
  StronglySorted str_le (filenames self) /\
  NIFTI_len self = List.length (filter is_nifti (os_listdir root)) /\
  transform self = t.
Proof.
  intros self.
  assert (Hp : Permutation (filenames self)
                 (map (fun f => Py.os_path_join root f)
                      (filter is_nifti (os_listdir root))))
    by (symmetry; apply sort_perm).
  split; [exact is_nifti_iff|]. split; [exact Hp|]. split; [|split; [|split]].
  - intros p. split.
    + intros Hin. apply (Permutation_in _ Hp) in Hin.
      apply in_map_iff in Hin as (f & <- & Hf). apply filter_In in Hf as [Hf Hn].
      now exists f.
    + intros (f & Hf & Hn & ->). apply (Permutation_in _ (Permutation_sym Hp)).
      apply in_map. now apply filter_In.
  - apply sort_sorted.
  - unfold NIFTI_len. rewrite (Permutation_length Hp). apply length_map.
  - reflexivity.
Qed.

(** C9: for a volume of at least two axes, [__getitem__] without a
    transform returns the loaded volume with its axes reversed, then
    flipped along axis 0, then along axis 1; a transform, when given, is
    applied to that reoriented volume.  For three axes the element at
    [(i, j, k)] is the one loaded at [(k, Y-1-j, Z-1-i)]. *)
Theorem NIFTI_getitem_reoriented
  (fs : list string) (index : Z) (path : string) (v : ndarray voxel) :
  Py.getitem fs index = Ok path ->
  nb_load path = Ok v ->
  (2 <= List.length (shape v))%nat ->
  exists r0 r,
    Np.flip (Np.transpose v) 0 = Ok r0 /\
    Np.flip r0 1 = Ok r /\
    NIFTI_getitem nb_load (MkNIFTI (B := out) None fs) index = Ok (Volume r) /\
    (forall t : ndarray voxel -> out,
       NIFTI_getitem nb_load (MkNIFTI (Some t) fs) index = Ok (Transformed (t r))) /\
    shape r = rev (shape v) /\
    (forall X Y Z i j k, shape v = [X; Y; Z] ->
       item r [i; j; k] = item v [k; (Y - 1 - j)%nat; (Z - 1 - i)%nat]).
Proof.
  intros Hpath Hload Hdim.
  assert (Hrev : (2 <= List.length (rev (shape v)))%nat) by now rewrite length_rev.
  destruct (rev (shape v)) as [|n0 [|n1 rest]] eqn:Hshape;
    cbn [List.length] in Hrev; try lia.
  exists (NDArray (rev (shape v))
            (fun idx => item (Np.transpose v) (Np.mirror 0 n0 idx))).
  exists (NDArray (rev (shape v))
            (fun idx => item (Np.transpose v) (Np.mirror 0 n0 (Np.mirror 1 n1 idx)))).
  assert (F0 : Np.flip (Np.transpose v) 0 =
               Ok (NDArray (rev (shape v))
                     (fun idx => item (Np.transpose v) (Np.mirror 0 n0 idx)))).
  { unfold Np.flip. cbn [Np.transpose shape]. now rewrite Hshape. }
  assert (F1 : Np.flip (NDArray (rev (shape v))
                          (fun idx => item (Np.transpose v) (Np.mirror 0 n0 idx))) 1 =
               Ok (NDArray (rev (shape v))
                     (fun idx => item (Np.transpose v)
                                   (Np.mirror 0 n0 (Np.mirror 1 n1 idx))))).
  { unfold Np.flip. cbn [shape item]. now rewrite Hshape. }
  split; [exact F0|]. split; [exact F1|].
  split; [|split; [|split]].
  - unfold NIFTI_getitem. cbn [filenames transform].
    rewrite Hpath. cbn [rbind]. rewrite Hload. cbn [rbind].
    rewrite F0. cbn [rbind]. rewrite F1. reflexivity.
  - intros t. unfold NIFTI_getitem. cbn [filenames transform].
    rewrite Hpath. cbn [rbind]. rewrite Hload. cbn [rbind].
    rewrite F0. cbn [rbind]. rewrite F1. reflexivity.
  - cbn [shape]. now rewrite Hshape.
  - intros X Y Z i j k HXYZ. rewrite HXYZ in Hshape. cbn in Hshape.
    injection Hshape as <- <- _. reflexivity.
Qed.

End DatasetFacts.

Lemma NIFTI_getitem_reoriented_witness :
  let v := NDArray [2; 3; 4]%nat
             (fun idx => match idx with
                         | [i; j; k] => (100 * i + 10 * j + k)%nat
                         | _ => 0%nat
                         end) in
  exists r0 r,
    Np.flip (Np.transpose v) 0 = Ok r0 /\
    Np.flip r0 1 = Ok r /\
    NIFTI_getitem (fun _ => Ok v) (MkNIFTI (B := unit) None ["data/ct.nii"]) 0
      = Ok (Volume r) /\
    (forall t : ndarray nat -> unit,
       NIFTI_getitem (fun _ => Ok v) (MkNIFTI (Some t) ["data/ct.nii"]) 0
       = Ok (Transformed (t r))) /\
    shape r = rev (shape v) /\
    (forall X Y Z i j k, shape v = [X; Y; Z] ->
       item r [i; j; k] = item v [k; (Y - 1 - j)%nat; (Z - 1 - i)%nat]).
Proof.
  intros v.
  apply (NIFTI_getitem_reoriented nat unit (fun _ => Ok v) ["data/ct.nii"] 0
           "data/ct.nii" v); [reflexivity | reflexivity | simpl; lia].
Defined.

(** ** Imports *)

(** C3 (defect): [mrtoct/dataset.py] binds [NIFTI] but neither [HDF5] nor
    [Combined], so the import at the top of [train.py] raises
    [ImportError] and no combined dataset is ever built. *)
Theorem train_import_dataset_fails :
  train_import_dataset = Raise ImportError /\
  existsb (String.eqb "HDF5") dataset_module = false /\
  existsb (String.eqb "Combined") dataset_module = false /\
  existsb (String.eqb "NIFTI") dataset_module = true.
Proof. repeat split. Qed.

(** * Further facts about the same code *)

(** ** Formatting and reading a step *)

Lemma append_inj_same_length (x y s t : string) :
  String.length x = String.length y -> x ++ s = y ++ t -> x = y /\ s = t.
Proof.
  revert y. induction x as [|a x IH]; intros [|b y]; cbn [String.length append];
    try discriminate.
  - intros _ H. now split.
  - intros [= Hlen] [= -> H]. destruct (IH y Hlen H) as [-> ->]. now split.
Qed.

Lemma append_cancel_l (p x y : string) : p ++ x = p ++ y -> x = y.
Proof. intros H. now apply (append_inj_same_length p p x y eq_refl). Qed.

Lemma append_cancel_r (x y s : string) : x ++ s = y ++ s -> x = y.
Proof.
  intros H. apply (append_inj_same_length x y s s); [|exact H].
  apply (f_equal String.length) in H. rewrite !length_append in H. lia.
Qed.

(** X1: writing an integer with [:05d] and reading it back with [int]
    gives the integer again, negative ones included and however many
    digits it has. *)
Theorem int_format_05d (n : Z) : Py.int (Py.format_05d n) = Ok n.
Proof.
  destruct (Z.ltb_spec n 0) as [Hneg|Hpos].
  - unfold Py.format_05d.
    replace (n <? 0) with true by (symmetry; apply Z.ltb_lt; lia).
    cbn zeta.
    destruct (decimal_spec (Z.abs n) (Z.abs_nonneg n)) as (Hd & Hv & Hl & _).
    set (r := Py.zeros (4 - String.length (Py.decimal (Z.abs n))) ++ Py.decimal (Z.abs n)).
    assert (Hr : all_digits r = true)
      by (unfold r; now rewrite all_digits_append, all_digits_zeros, Hd).
    assert (Hlen : (0 < String.length r)%nat)
      by (unfold r; rewrite length_append; lia).
    assert (Hval : value r = Z.abs n).
    { unfold r, value. rewrite value_from_append by apply all_digits_zeros.
      now rewrite value_from_zeros. }
    unfold Py.int. cbn [Py.lstrip].
    change (Py.is_space "-") with false. cbn iota.
    change (Ascii.eqb "-" "+") with false. change (Ascii.eqb "-" "-") with true.
    cbn iota. rewrite parse_digits_all_digits by assumption.
    replace (0 <? String.length r)%nat with true
      by (symmetry; apply Nat.ltb_lt; lia).
    cbn [orb option_map of_option]. fold (value r). rewrite Hval. f_equal. lia.
  - destruct (format_05d_nonneg n Hpos) as (Hd & Hv & Hl).
    rewrite int_all_digits by assumption. now rewrite Hv.
Qed.

Lemma startswith_slash_prefix (p t t' : string) :
  Py.startswith_slash (p ++ String "-" t) = Py.startswith_slash (p ++ String "-" t').
Proof. now destruct p. Qed.

(** X2: no two steps share a file name: for a fixed prefix, extension and
    directory, [fmt_fname] gives different names for different steps. *)
Theorem fmt_fname_injective (prefix ext path : string) (s1 s2 : Z) :
  s1 <> s2 -> fmt_fname prefix ext s1 path <> fmt_fname prefix ext s2 path.
Proof.
  intros Hne. intros H. apply Hne. revert H.
  unfold fmt_fname, Py.os_path_join.
  change (prefix ++ "-" ++ Py.format_05d s1 ++ "." ++ ext)
    with (prefix ++ String "-" (Py.format_05d s1 ++ "." ++ ext)).
  change (prefix ++ "-" ++ Py.format_05d s2 ++ "." ++ ext)
    with (prefix ++ String "-" (Py.format_05d s2 ++ "." ++ ext)).
  rewrite (startswith_slash_prefix prefix _ (Py.format_05d s2 ++ "." ++ ext)).
  intros H.
  assert (Hb : prefix ++ String "-" (Py.format_05d s1 ++ "." ++ ext) =
               prefix ++ String "-" (Py.format_05d s2 ++ "." ++ ext)).
  { destruct (Py.startswith_slash _); [exact H|].
    destruct (String.eqb path "" || Py.endswith path "/").
    - now apply append_cancel_l in H.
    - apply append_cancel_l in H. now injection H. }
  apply append_cancel_l in Hb. injection Hb as Hb. apply append_cancel_r in Hb.
  pose proof (int_format_05d s1) as E1. rewrite Hb, int_format_05d in E1.
  congruence.
Qed.

Lemma fmt_fname_injective_witness :
  fmt_fname "model" ".pt" 1000 "ckpt" <> fmt_fname "model" ".pt" 101000 "ckpt".
Proof.
  apply (fmt_fname_injective "model" ".pt" "ckpt" 1000 101000). lia.
Defined.

(** X3: with the extension passed without its dot, the name [fmt_fname]
    builds for a step that is not negative, under a prefix free of
    dashes, is read back to that step by the parse of
    [restore_checkpoint]. *)
Theorem fmt_fname_parse_step (prefix path : string) (step : Z) :
  0 <= step -> free_of "-" prefix = true ->
  let f := prefix ++ "-" ++ Py.format_05d step ++ ".pt" in
  fmt_fname prefix "pt" step path = Py.os_path_join path f /\
  Py.endswith f ".pt" = true /\
  parse_step f = Ok step.
Proof.
  intros Hstep Hfree f.
  destruct (format_05d_nonneg step Hstep) as (Hd & Hv & Hl).
  assert (Hf : f = (prefix ++ String "-" (Py.format_05d step)) ++ ".pt").
  { unfold f. now rewrite append_assoc. }
  split; [reflexivity|]. split.
  - rewrite Hf. apply endswith_append.
  - unfold parse_step. rewrite Hf.
    change 3%nat with (String.length ".pt"). rewrite drop_last_append.
    rewrite split_at_sep by assumption.
    rewrite split_free by now apply all_digits_free_of_dash.
    cbn [Py.index nth_error of_option rbind].
    rewrite int_all_digits by assumption. now rewrite Hv.
Qed.

Lemma fmt_fname_parse_step_witness :
  fmt_fname "model" "pt" 1000 "ckpt" = Py.os_path_join "ckpt" "model-01000.pt" /\
  Py.endswith "model-01000.pt" ".pt" = true /\
  parse_step "model-01000.pt" = Ok 1000.
Proof.
  apply (fmt_fname_parse_step "model" "ckpt" 1000); [lia | reflexivity].
Defined.

(** ** Names the parse does not accept, and fields it ignores *)

Lemma free_of_take (sep : ascii) (n : nat) (s : string) :
  free_of sep s = true -> free_of sep (Py.take n s) = true.
Proof.
  revert s. induction n as [|n IH]; intros [|c s]; cbn [Py.take free_of];
    try reflexivity.
  intros [Hc Hs]%andb_prop. now rewrite Hc, (IH s Hs).
Qed.

(** X4: a directory entry without any dash makes the parse raise
    [IndexError], whatever else the name holds. *)
Theorem parse_step_no_dash (f : string) :
  free_of "-" f = true -> parse_step f = Raise IndexError.
Proof.
  intros Hf. unfold parse_step, Py.drop_last.
  now rewrite split_free by now apply free_of_take.
Qed.

Lemma parse_step_no_dash_witness : parse_step "checkpoint_00012.pt" = Raise IndexError.
Proof. apply (parse_step_no_dash "checkpoint_00012.pt"). reflexivity. Defined.

(** X5: the step is read from the second dash-separated field alone: a
    name with a further dash and anything after it, ending in any three
    characters, parses exactly as its second field does. *)
Theorem parse_step_second_field (p q r ext : string) :
  free_of "-" p = true -> free_of "-" q = true -> String.length ext = 3%nat ->
  parse_step (p ++ "-" ++ q ++ "-" ++ r ++ ext) = Py.int q.
Proof.
  intros Hp Hq Hext. unfold parse_step.
  replace (p ++ "-" ++ q ++ "-" ++ r ++ ext)
    with ((p ++ String "-" (q ++ String "-" r)) ++ ext)
    by (rewrite !append_assoc; cbn [append]; now rewrite !append_assoc).
  rewrite <- Hext, drop_last_append.
  rewrite split_at_sep by assumption. rewrite split_at_sep by assumption.
  reflexivity.
Qed.

Lemma parse_step_second_field_witness :
  parse_step ("model" ++ "-" ++ "00012" ++ "-" ++ "best" ++ ".pt") = Py.int "00012".
Proof.
  apply (parse_step_second_field "model" "00012" "best" ".pt"); reflexivity.
Defined.

Lemma eqb_longer (c : ascii) (s t suffix : string) :
  (String.length suffix <= String.length t)%nat ->
  String.eqb (String c (s ++ t)) suffix = false.
Proof.
  intros Hlen. apply String.eqb_neq. intros H.
  apply (f_equal String.length) in H. cbn [String.length] in H.
  rewrite length_append in H. lia.
Qed.

Lemma endswith_append_long (s t suffix : string) :
  (String.length suffix <= String.length t)%nat ->
  Py.endswith (s ++ t) suffix = Py.endswith t suffix.
Proof.
  intros Hlen. induction s as [|c s IH]; [reflexivity|].
  change (Py.endswith (String c s ++ t) suffix)
    with (String.eqb (String c (s ++ t)) suffix || Py.endswith (s ++ t) suffix).
  now rewrite eqb_longer, IH.
Qed.

(** X6: the sample images [save_results] writes into the checkpoint
    directory are never taken for checkpoints: the entry it creates does
    not end in [.pt], for any step. *)
Theorem image_name_not_checkpoint (step : Z) (path : string) :
  let f := "images-" ++ Py.format_05d step ++ "..jpg" in
  fmt_fname "images" ".jpg" step path = Py.os_path_join path f /\
  is_checkpoint f = false.
Proof.
  intros f. split; [reflexivity|].
  unfold f, is_checkpoint.
  change ("images-" ++ Py.format_05d step ++ "..jpg")
    with ("images-" ++ (Py.format_05d step ++ "..jpg")).
  rewrite <- append_assoc.
  now rewrite endswith_append_long by (cbn; lia).
Qed.

(** ** The order of names beyond five digits *)

Lemma decimal_six_digits (b : Z) :
  100000 <= b < 1000000 ->
  exists d c, Py.format_05d b = d ++ String c "" /\
              all_digits d = true /\ value d = b / 10 /\ String.length d = 5%nat.
Proof.
  intros Hb.
  assert (Hlog : 16 <= Z.log2 b) by (apply Z.log2_le_pow2; lia).
  destruct (Z.to_nat (Z.log2 b)) as [|k] eqn:Hk; [lia|].
  assert (Hq : 0 <= b / 10 < 2 ^ Z.of_nat (S k)).
  { split; [apply Z.div_pos; lia|].
    rewrite <- Hk, Z2Nat.id by lia.
    apply Z.div_lt_upper_bound; [lia|].
    pose proof (Z.log2_spec b ltac:(lia)) as [_ Hhi].
    rewrite Z.pow_succ_r in Hhi by lia. lia. }
  destruct (decimal_fuel_spec k (b / 10) Hq) as (Hd & Hv & Hl & Hp).
  set (d := Py.decimal_fuel (S k) (b / 10)) in *.
  assert (Hdec : Py.decimal b = d ++ String (Py.ascii_of_digit (b mod 10)) "").
  { unfold Py.decimal. rewrite Hk. cbn [Py.decimal_fuel].
    replace (b <? 10) with false by (symmetry; apply Z.ltb_ge; lia). reflexivity. }
  assert (Hlen : String.length d = 5%nat).
  { destruct (value_from_shift d 0 Hd) as [_ Hub]. rewrite Hv in Hub.
    assert (10000 <= b / 10 < 100000).
    { split; [apply Z.div_le_lower_bound; lia | apply Z.div_lt_upper_bound; lia]. }
    rewrite Z.max_l in Hp by lia.
    destruct (Nat.lt_trichotomy (String.length d) 5) as [Hlt|[Heq|Hgt]];
      [exfalso | exact Heq | exfalso].
    - assert (10 ^ Z.of_nat (String.length d) <= 10 ^ 4)
        by (apply Z.pow_le_mono_r; lia).
      change (10 ^ 4) with 10000 in *. lia.
    - assert (10 ^ 5 <= 10 ^ Z.of_nat (String.length d - 1))
        by (apply Z.pow_le_mono_r; lia).
      change (10 ^ 5) with 100000 in *. lia. }
  exists d, (Py.ascii_of_digit (b mod 10)).
  split; [|now repeat split].
  unfold Py.format_05d.
  replace (b <? 0) with false by (symmetry; apply Z.ltb_ge; lia).
  rewrite Z.abs_eq by lia. cbn zeta. rewrite Hdec, length_append, Hlen.
  reflexivity.
Qed.

(** X7: ascending order of names follows the steps only up to five
    digits.  A six-digit step [b] whose first five digits are below a
    five-digit step [a] sorts strictly before [a], although [a < b]. *)
Theorem checkpoint_name_six_digits (a b : Z) :
  0 <= a < 100000 -> 100000 <= b < 1000000 -> b / 10 < a ->
  String.ltb (checkpoint_name b) (checkpoint_name a) = true.
Proof.
  intros Ha Hb Hlt.
  destruct (decimal_six_digits b Hb) as (d & c & Hfmt & Hd & Hv & Hlen).
  destruct (format_05d_nonneg a (proj1 Ha)) as (Da & Va & _).
  unfold String.ltb, checkpoint_name.
  rewrite compare_common_prefix, Hfmt, append_assoc.
  rewrite compare_same_length by now rewrite Hlen, format_05d_length.
  rewrite compare_digits by (assumption || now rewrite Hlen, format_05d_length).
  rewrite Hv, Va. now apply Z.compare_lt_iff in Hlt as ->.
Qed.

Lemma checkpoint_name_six_digits_witness :
  String.ltb (checkpoint_name 100000) (checkpoint_name 99000) = true.
Proof.
  apply (checkpoint_name_six_digits 99000 100000); [lia | lia | reflexivity].
Defined.

(** ** More on restoring *)

Lemma sort_perm_eq (l l' : list string) : Permutation l l' -> Py.sort l = Py.sort l'.
Proof.
  intros Hp. apply sorted_perm_unique; try apply sort_sorted.
  rewrite <- (sort_perm l), <- (sort_perm l'). exact Hp.
Qed.

Lemma parse_step_double_dot (step : Z) :
  0 <= step -> parse_step ("model-" ++ Py.format_05d step ++ "..pt") = Raise ValueError.
Proof.
  intros Hstep. destruct (format_05d_nonneg step Hstep) as (Hd & _ & Hl).
  replace ("model-" ++ Py.format_05d step ++ "..pt")
    with (("model" ++ String "-" (Py.format_05d step ++ ".")) ++ ".pt")
    by (cbn [append]; now rewrite append_assoc).
  unfold parse_step.
  change 3%nat with (String.length ".pt"). rewrite drop_last_append.
  rewrite split_at_sep by reflexivity.
  rewrite split_free
    by (rewrite free_of_append, all_digits_free_of_dash by assumption; reflexivity).
  cbn [Py.index nth_error of_option rbind].
  destruct (Py.format_05d step) as [|c r] eqn:Hfmt; [cbn in Hl; lia|].
  pose proof Hd as Hc. cbn [all_digits] in Hc. apply andb_prop in Hc as [Hc _].
  cbn [append]. rewrite int_unsigned by assumption.
  change (String c (r ++ ".")) with (String c r ++ String "." "").
  rewrite parse_digits_stray by (assumption || reflexivity). reflexivity.
Qed.

Section RestoreMore.

Variables tensor weights opt_state gradient : Type.
Variable torch_load : string -> result weights.

Abbreviation WorldR := (world tensor weights opt_state gradient).

(** X8: the outcome of [restore_checkpoint] depends on the directory only
    through its entries ending in [.pt], and not on the order in which
    the directory is listed. *)
Theorem restore_checkpoint_listing (listdir listdir' : string -> list string)
  (path : string) (w : WorldR) :
  Permutation (filter is_checkpoint (listdir path))
              (filter is_checkpoint (listdir' path)) ->
  restore_checkpoint listdir torch_load path w =
  restore_checkpoint listdir' torch_load path w.
Proof.
  intros Hp. rewrite !restore_checkpoint_unfold.
  now rewrite (sort_perm_eq _ _ Hp).
Qed.


Variable grad_zero : gradient.
Variable grad_add : gradient -> gradient -> gradient.
Variable autograd : node tensor weights -> gradient.
Variable adam : opt_state -> weights -> gradient -> opt_state * weights.
Variable loader : nat -> list (tensor * tensor).

(** X10: a run cannot resume from what an earlier run saved.  When the
    first [.pt] entry in ascending order is a name as [save_model] writes
    it, [main] raises [ValueError] before the first training step, with
    the world untouched. *)
Theorem main_restart_raises (listdir : string -> list string)
  (fuel : nat) (a : args) (w : WorldR) (step : Z) :
  0 <= step ->
  hd_error (Py.sort (filter is_checkpoint (listdir (checkpoint_path a))))
    = Some ("model-" ++ Py.format_05d step ++ "..pt") ->
  main listdir torch_load grad_zero grad_add autograd adam loader fuel a w
    = Raised ValueError w.
Proof.
  intros Hstep Hhd. unfold main. rewrite restore_checkpoint_unfold.
  destruct (Py.sort (filter is_checkpoint (listdir (checkpoint_path a))))
    as [|f rest]; [discriminate|].
  assert (Hf : f = "model-" ++ Py.format_05d step ++ "..pt") by now injection Hhd.
  rewrite Hf. now rewrite parse_step_double_dot.
Qed.

End RestoreMore.

Lemma restore_checkpoint_listing_witness :
  restore_checkpoint (tensor := unit) (opt_state := unit) (gradient := unit)
    (fun _ => ["model-02000.pt"; "log.txt"; "model-01000.pt"]) (fun p => Ok p)
    "ckpt" (World "fresh" tt tt []) =
  restore_checkpoint (tensor := unit) (opt_state := unit) (gradient := unit)
    (fun _ => ["model-01000.pt"; "images-01000..jpg"; "model-02000.pt"]) (fun p => Ok p)
    "ckpt" (World "fresh" tt tt []).
Proof.
  apply (restore_checkpoint_listing unit string unit unit (fun p => Ok p)
           (fun _ => ["model-02000.pt"; "log.txt"; "model-01000.pt"])
           (fun _ => ["model-01000.pt"; "images-01000..jpg"; "model-02000.pt"])).
  simpl. apply perm_swap.
Defined.

Lemma main_restart_raises_witness :
  main (tensor := unit) (opt_state := unit) (gradient := unit)
    (fun _ => ["images-00000..jpg"; "model-01000..pt"; "model-00000..pt"])
    (fun p => Ok p) tt (fun _ _ => tt) (fun _ => tt) (fun _ w _ => (tt, w))
    (fun _ => [(tt, tt)]) 3 (Args false 100 1000 "ckpt") (World "fresh" tt tt [])
  = Raised ValueError (World "fresh" tt tt []).
Proof.
  apply (main_restart_raises unit string unit unit (fun p => Ok p)
           tt (fun _ _ => tt) (fun _ => tt) (fun _ w _ => (tt, w))
           (fun _ => [(tt, tt)])
           (fun _ => ["images-00000..jpg"; "model-01000..pt"; "model-00000..pt"])
           3 (Args false 100 1000 "ckpt") (World "fresh" tt tt []) 0);
    [lia | reflexivity].
Defined.

(** ** More on the training loop *)

Section TrainMore.

Variables tensor weights opt_state gradient : Type.
Variable grad_zero : gradient.
Variable grad_add : gradient -> gradient -> gradient.
Variable autograd : node tensor weights -> gradient.
Variable adam : opt_state -> weights -> gradient -> opt_state * weights.

Abbreviation WorldT := (world tensor weights opt_state gradient).

Lemma log_calls_writes (a : args) (batch : tensor * tensor) (step : Z) (w : WorldT) :
  checkpoint_writes (log_calls a batch step w) = [] /\
  image_writes (log_calls a batch step w) =
  if step mod log_steps a =? 0
  then [fmt_fname "images" ".jpg" step (checkpoint_path a)] else [].
Proof. unfold log_calls. now destruct (step mod log_steps a =? 0). Qed.

Lemma save_calls_writes (a : args) (step : Z) (m : weights) :
  checkpoint_writes (save_calls (tensor := tensor) a step m) =
  (if step mod save_steps a =? 0
   then [fmt_fname "model" ".pt" step (checkpoint_path a)] else []) /\
  image_writes (save_calls (tensor := tensor) a step m) = [].
Proof. unfold save_calls. now destruct (step mod save_steps a =? 0). Qed.

(** X11: with [log_steps] zero every iteration raises
    [ZeroDivisionError], and it does so after the optimizer step: the
    weights have been updated from the L1 loss of the batch, and no image
    or checkpoint has been written. *)
Theorem train_iteration_log_steps_zero
  (a : args) (batch : tensor * tensor) (step : Z) (w : WorldT) :
  log_steps a = 0 ->
  exists w' : WorldT,
    train_iteration grad_zero grad_add autograd adam a batch step w
      = (Raise ZeroDivisionError, w') /\
    log w' = (log w ++ [ZeroGrad; Backward (iteration_loss batch w); OptimizerStep])%list /\
    (optimizer w', model w') =
      adam (optimizer w) (model w)
           (grad_add grad_zero (autograd (iteration_loss batch w))).
Proof.
  intros Hzero.
  pose proof (train_iteration_unfold _ _ _ _ grad_zero grad_add autograd adam
                a batch step w) as E.
  cbn zeta in E. rewrite Hzero in E. cbn [Z.eqb] in E.
  eexists. split; [exact E|]. cbn [log optimizer model].
  split; [reflexivity|]. now destruct (adam _ _ _).
Qed.

(** X12: with [save_steps] zero and [log_steps] not, every iteration
    raises [ZeroDivisionError] without writing a checkpoint; the sample
    image of a step that is a multiple of [log_steps] has been written by
    then. *)
Theorem train_iteration_save_steps_zero
  (a : args) (batch : tensor * tensor) (step : Z) (w : WorldT) :
  log_steps a <> 0 -> save_steps a = 0 ->
  exists (w' : WorldT) (new : list (call tensor weights)),
    train_iteration grad_zero grad_add autograd adam a batch step w
      = (Raise ZeroDivisionError, w') /\
    log w' = (log w ++ new)%list /\
    checkpoint_writes new = [] /\
    image_writes new =
      if step mod log_steps a =? 0
      then [fmt_fname "images" ".jpg" step (checkpoint_path a)] else [].
Proof.
  intros Hlog Hzero.
  pose proof (train_iteration_unfold _ _ _ _ grad_zero grad_add autograd adam
                a batch step w) as E.
  cbn zeta in E. apply Z.eqb_neq in Hlog. rewrite Hlog, Hzero in E. cbn [Z.eqb] in E.
  eexists. eexists. split; [exact E|]. cbn [log]. split; [reflexivity|].
  destruct (log_calls_writes a batch step w) as [Hc Hi].
  unfold checkpoint_writes, image_writes in *.
  rewrite !flat_map_app, Hc, Hi. now split.
Qed.

Lemma train_iteration_writes (a : args) (batch : tensor * tensor) (step : Z) (w : WorldT) :
  log_steps a <> 0 -> save_steps a <> 0 ->
  exists (w' : WorldT) (new : list (call tensor weights)),
    train_iteration grad_zero grad_add autograd adam a batch step w = (Ok (step + 1), w') /\
    log w' = (log w ++ new)%list /\
    checkpoint_writes new =
      (if step mod save_steps a =? 0
       then [fmt_fname "model" ".pt" step (checkpoint_path a)] else []) /\
    image_writes new =
      (if step mod log_steps a =? 0
       then [fmt_fname "images" ".jpg" step (checkpoint_path a)] else []).
Proof.
  intros Hlog Hsave.
  pose proof (train_iteration_unfold _ _ _ _ grad_zero grad_add autograd adam
                a batch step w) as E.
  cbn zeta in E. apply Z.eqb_neq in Hlog, Hsave. rewrite Hlog, Hsave in E.
  eexists. eexists. split; [exact E|]. cbn [log]. split; [reflexivity|].
  destruct (log_calls_writes a batch step w) as [Hc Hi].
  match goal with |- context [save_calls a step ?m] =>
    destruct (save_calls_writes a step m) as [Sc Si] end.
  unfold checkpoint_writes, image_writes in *.
  rewrite !flat_map_app, Hc, Hi, Sc, Si. cbn [flat_map app].
  now rewrite app_nil_r.
Qed.

Lemma steps_shift (step : Z) (n : nat) :
  map (fun k => step + Z.of_nat k) (seq 1 n) =
  map (fun k => step + 1 + Z.of_nat k) (seq 0 n).
Proof.
  rewrite <- seq_shift, map_map. apply map_ext. intros k. lia.
Qed.

(** X13: over one pass of the loader, with non-zero [log_steps] and
    [save_steps], the loop ends with [step] advanced by the number of
    batches, and the checkpoints and images written are, in order, those
    of the steps passed through that are multiples of [save_steps] and of
    [log_steps]. *)
Theorem for_loop_schedule
  (a : args) (batches : list (tensor * tensor)) (step : Z) (w : WorldT) :
  log_steps a <> 0 -> save_steps a <> 0 ->
  let steps := map (fun k => step + Z.of_nat k) (seq 0 (List.length batches)) in
  exists (w' : WorldT) (new : list (call tensor weights)),
    for_loop grad_zero grad_add autograd adam a batches step w
      = (Ok (step + Z.of_nat (List.length batches)), w') /\
    log w' = (log w ++ new)%list /\
    checkpoint_writes new =
      map (fun s => fmt_fname "model" ".pt" s (checkpoint_path a))
          (filter (fun s => s mod save_steps a =? 0) steps) /\
    image_writes new =
      map (fun s => fmt_fname "images" ".jpg" s (checkpoint_path a))
          (filter (fun s => s mod log_steps a =? 0) steps).
Proof.
  intros Hlog Hsave. revert step w.
  induction batches as [|b bs IH]; intros step w; cbn zeta.
  - exists w, []. cbn. rewrite Z.add_0_r, app_nil_r. now repeat split.
  - destruct (train_iteration_writes a b step w Hlog Hsave) as (w1 & n1 & E1 & L1 & C1 & I1).
    destruct (IH (step + 1) w1) as (w2 & n2 & E2 & L2 & C2 & I2). cbn zeta in *.
    exists w2, (n1 ++ n2)%list.
    split; [|split; [|split]].
    + cbn [for_loop]. unfold bind. rewrite E1, E2. cbn [List.length].
      do 2 f_equal. lia.
    + now rewrite L2, L1, app_assoc.
    + unfold checkpoint_writes in *. rewrite flat_map_app, C1, C2.
      cbn [List.length seq map filter]. rewrite steps_shift, Z.add_0_r.
      now destruct (step mod save_steps a =? 0).
    + unfold image_writes in *. rewrite flat_map_app, I1, I2.
      cbn [List.length seq map filter]. rewrite steps_shift, Z.add_0_r.
      now destruct (step mod log_steps a =? 0).
Qed.

End TrainMore.

Lemma train_iteration_log_steps_zero_witness :
  exists w' : world Z Z unit Z,
    train_iteration 0 Z.add (fun _ => 1) (fun o m g => (o, m - g))
      (Args false 0 1000 "ckpt") (1, 2) 0 (World 10 tt 7 [])
      = (Raise ZeroDivisionError, w') /\
    log w' = (log (World 10 tt 7 []) ++
              [ZeroGrad; Backward (iteration_loss (1, 2) (World 10 tt 7 []));
               OptimizerStep])%list /\
    (optimizer w', model w') = (tt, 10 - (0 + 1)).
Proof.
  apply (train_iteration_log_steps_zero Z Z unit Z 0 Z.add (fun _ => 1)
           (fun o m g => (o, m - g)) (Args false 0 1000 "ckpt") (1, 2) 0
           (World 10 tt 7 [])).
  reflexivity.
Defined.

Lemma train_iteration_save_steps_zero_witness :
  exists (w' : world Z Z unit Z) (new : list (call Z Z)),
    train_iteration 0 Z.add (fun _ => 1) (fun o m g => (o, m - g))
      (Args false 100 0 "ckpt") (1, 2) 200 (World 10 tt 7 [])
      = (Raise ZeroDivisionError, w') /\
    log w' = (log (World 10 tt 7 []) ++ new)%list /\
    checkpoint_writes new = [] /\
    image_writes new = [fmt_fname "images" ".jpg" 200 "ckpt"].
Proof.
  apply (train_iteration_save_steps_zero Z Z unit Z 0 Z.add (fun _ => 1)
           (fun o m g => (o, m - g)) (Args false 100 0 "ckpt") (1, 2) 200
           (World 10 tt 7 [])); [simpl; lia | reflexivity].
Defined.

Lemma for_loop_schedule_witness :
  exists (w' : world Z Z unit Z) (new : list (call Z Z)),
    for_loop 0 Z.add (fun _ => 1) (fun o m g => (o, m - g))
      (Args false 100 50 "ckpt") [(1, 2); (3, 4); (5, 6)] 99 (World 10 tt 7 [])
      = (Ok (99 + 3), w') /\
    log w' = (log (World 10 tt 7 []) ++ new)%list /\
    checkpoint_writes new = [fmt_fname "model" ".pt" 100 "ckpt"] /\
    image_writes new = [fmt_fname "images" ".jpg" 100 "ckpt"].
Proof.
  apply (for_loop_schedule Z Z unit Z 0 Z.add (fun _ => 1)
           (fun o m g => (o, m - g)) (Args false 100 50 "ckpt")
           [(1, 2); (3, 4); (5, 6)] 99 (World 10 tt 7 [])); simpl; lia.
Defined.

(** ** More on the NIFTI dataset *)

Lemma filter_perm {A : Type} (f : A -> bool) (l l' : list A) :
  Permutation l l' -> Permutation (filter f l) (filter f l').
Proof.
  induction 1 as [|x l l' _ IH|x y l|l l' l'' _ IH1 _ IH2]; cbn [filter].
  - constructor.
  - destruct (f x); [now constructor | assumption].
  - destruct (f x), (f y); try reflexivity. apply perm_swap.
  - now transitivity (filter f l').
Qed.

Lemma getitem_in_range {A : Type} (l : list A) (i : Z) :
  0 <= i < Z.of_nat (List.length l) ->
  exists x, Py.getitem l i = Ok x /\ nth_error l (Z.to_nat i) = Some x.
Proof.
  intros Hi. unfold Py.getitem. cbn zeta.
  replace (0 <=? i) with true by (symmetry; apply Z.leb_le; lia).
  replace (i <? Z.of_nat (List.length l)) with true by (symmetry; apply Z.ltb_lt; lia).
  cbn [andb]. unfold Py.index.
  destruct (nth_error l (Z.to_nat i)) as [x|] eqn:Hx.
  - now exists x.
  - apply nth_error_None in Hx. lia.
Qed.

Section DatasetMore.

Variables voxel out : Type.
Variable nb_load : string -> result (ndarray voxel).

(** X14: an index outside [-len, len) raises [IndexError]; in
    particular every index does on a dataset without files. *)
Theorem NIFTI_getitem_out_of_range (self : NIFTI voxel out) (index : Z) :
  index < - Z.of_nat (NIFTI_len self) \/ Z.of_nat (NIFTI_len self) <= index ->
  NIFTI_getitem nb_load self index = Raise IndexError.
Proof.
  intros Hout. unfold NIFTI_getitem, NIFTI_len, Py.getitem in *. cbn zeta.
  destruct Hout as [Hlow|Hhigh].
  - replace (0 <=? index) with false by (symmetry; apply Z.leb_gt; lia).
    replace (- Z.of_nat (List.length (filenames self)) <=? index) with false
      by (symmetry; apply Z.leb_gt; lia).
    reflexivity.
  - replace (index <? Z.of_nat (List.length (filenames self))) with false
      by (symmetry; apply Z.ltb_ge; lia).
    replace (index <? 0) with false by (symmetry; apply Z.ltb_ge; lia).
    now rewrite !andb_false_r.
Qed.

(** X15: a negative index counts from the end: for [-len <= index < 0]
    the item is that at [index + len]. *)
Theorem NIFTI_getitem_negative (self : NIFTI voxel out) (index : Z) :
  - Z.of_nat (NIFTI_len self) <= index < 0 ->
  NIFTI_getitem nb_load self index =
  NIFTI_getitem nb_load self (index + Z.of_nat (NIFTI_len self)).
Proof.
  intros Hneg. unfold NIFTI_getitem, NIFTI_len, Py.getitem in *. cbn zeta.
  set (n := Z.of_nat (List.length (filenames self))) in *.
  replace (0 <=? index) with false by (symmetry; apply Z.leb_gt; lia).
  replace (- n <=? index) with true by (symmetry; apply Z.leb_le; lia).
  replace (index <? 0) with true by (symmetry; apply Z.ltb_lt; lia).
  replace (0 <=? index + n) with true by (symmetry; apply Z.leb_le; lia).
  replace (index + n <? n) with true by (symmetry; apply Z.ltb_lt; lia).
  cbn [andb]. now rewrite (Z.add_comm n index).
Qed.

(** X16: a file that loads to an array with fewer than two axes makes
    [__getitem__] raise [AxisError], with or without a transform. *)
Theorem NIFTI_getitem_too_few_axes
  (self : NIFTI voxel out) (index : Z) (path : string) (v : ndarray voxel) :
  Py.getitem (filenames self) index = Ok path ->
  nb_load path = Ok v ->
  (List.length (shape v) < 2)%nat ->
  NIFTI_getitem nb_load self index = Raise AxisError.
Proof.
  intros Hpath Hload Hdim. unfold NIFTI_getitem.
  rewrite Hpath. cbn [rbind]. rewrite Hload. cbn [rbind].
  unfold Np.flip, Np.transpose. cbn [shape item].
  assert (Hrev : (List.length (rev (shape v)) < 2)%nat) by now rewrite length_rev.
  destruct (rev (shape v)) as [|n0 [|n1 rest]]; cbn [List.length] in Hrev;
    try lia; reflexivity.
Qed.

(** X17: reorienting a volume of three axes loses nothing: the result has
    the shape reversed and every element of the loaded volume is found in
    it, the one at [(a, b, c)] at [(Z-1-c, Y-1-b, a)]. *)
Theorem NIFTI_getitem_keeps_voxels
  (fs : list string) (index : Z) (path : string) (v : ndarray voxel) (X Y Z : nat) :
  Py.getitem fs index = Ok path ->
  nb_load path = Ok v ->
  shape v = [X; Y; Z] ->
  exists r,
    NIFTI_getitem nb_load (MkNIFTI (B := out) None fs) index = Ok (Volume r) /\
    shape r = [Z; Y; X] /\
    forall a b c, (a < X)%nat -> (b < Y)%nat -> (c < Z)%nat ->
      item r [(Z - 1 - c)%nat; (Y - 1 - b)%nat; a] = item v [a; b; c].
Proof.
  intros Hpath Hload Hshape. unfold NIFTI_getitem. cbn [filenames transform].
  rewrite Hpath. cbn [rbind]. rewrite Hload. cbn [rbind].
  unfold Np.flip, Np.transpose. cbn [shape item]. rewrite Hshape.
  cbn [rev app nth_error rbind shape item].
  eexists. split; [reflexivity|]. cbn [shape item]. split; [reflexivity|].
  intros a b c Ha Hb Hc. cbn [Np.mirror rev app].
  replace (Y - 1 - (Y - 1 - b))%nat with b by lia.
  replace (Z - 1 - (Z - 1 - c))%nat with c by lia.
  reflexivity.
Qed.

(** X18: the file list of the dataset does not depend on the order in
    which the directory is listed. *)
Theorem NIFTI_init_listing (listdir listdir' : string -> list string)
  (root : string) (t : option (ndarray voxel -> out)) :
  Permutation (listdir root) (listdir' root) ->
  NIFTI_init listdir root t = NIFTI_init listdir' root t.
Proof.
  intros Hp. unfold NIFTI_init. f_equal.
  apply sort_perm_eq, Permutation_map, filter_perm, Hp.
Qed.

(** X19: every index from 0 up to [__len__] names a file of the
    directory that [is_nifti] accepts, joined to [root]; if that file
    fails to load, [__getitem__] raises the same exception. *)
Theorem NIFTI_getitem_in_range (listdir : string -> list string)
  (root : string) (t : option (ndarray voxel -> out)) (index : Z) :
  let self := NIFTI_init listdir root t in
  0 <= index < Z.of_nat (NIFTI_len self) ->
  exists f,
    In f (listdir root) /\ is_nifti f = true /\
    Py.getitem (filenames self) index = Ok (Py.os_path_join root f) /\
    forall e, nb_load (Py.os_path_join root f) = Raise e ->
              NIFTI_getitem nb_load self index = Raise e.
Proof.
  intros self Hi. unfold NIFTI_len in Hi.
  destruct (getitem_in_range (filenames self) index Hi) as (p & Hp & Hnth).
  apply nth_error_In in Hnth.
  assert (Hin : In p (map (fun f => Py.os_path_join root f)
                          (filter is_nifti (listdir root))))
    by (eapply Permutation_in; [symmetry; apply sort_perm | exact Hnth]).
  apply in_map_iff in Hin as (f & <- & Hf). apply filter_In in Hf as [Hf Hn].
  exists f. repeat split; try assumption.
  intros e He. unfold NIFTI_getitem. rewrite Hp. cbn [rbind]. now rewrite He.
Qed.

End DatasetMore.

Lemma NIFTI_getitem_out_of_range_witness :
  NIFTI_getitem (voxel := nat) (out := unit)
    (fun _ => Raise ValueError)
    (NIFTI_init (fun _ => ["b.nii.gz"; "readme.txt"; "a.nii"]) "data" None) 2
  = Raise IndexError.
Proof.
  apply (NIFTI_getitem_out_of_range nat unit (fun _ => Raise ValueError)
           (NIFTI_init (fun _ => ["b.nii.gz"; "readme.txt"; "a.nii"]) "data" None) 2).
  right. simpl. lia.
Defined.

Lemma NIFTI_getitem_negative_witness :
  let self := NIFTI_init (voxel := nat) (out := unit)
                (fun _ => ["b.nii.gz"; "readme.txt"; "a.nii"]) "data" None in
  NIFTI_getitem (fun p => Ok (NDArray [String.length p; 1%nat] (fun _ => 0%nat))) self (-1)
  = NIFTI_getitem (fun p => Ok (NDArray [String.length p; 1%nat] (fun _ => 0%nat))) self
      (-1 + Z.of_nat (NIFTI_len self)).
Proof.
  intros self.
  apply (NIFTI_getitem_negative nat unit
           (fun p => Ok (NDArray [String.length p; 1%nat] (fun _ => 0%nat))) self (-1)).
  simpl. lia.
Defined.

Lemma NIFTI_getitem_too_few_axes_witness :
  NIFTI_getitem (voxel := nat) (out := unit)
    (fun _ => Ok (NDArray [5%nat] (fun idx => List.length idx)))
    (MkNIFTI None ["data/a.nii"]) 0
  = Raise AxisError.
Proof.
  apply (NIFTI_getitem_too_few_axes nat unit
           (fun _ => Ok (NDArray [5%nat] (fun idx => List.length idx)))
           (MkNIFTI None ["data/a.nii"]) 0 "data/a.nii"
           (NDArray [5%nat] (fun idx => List.length idx)));
    [reflexivity | reflexivity | simpl; lia].
Defined.

Lemma NIFTI_getitem_keeps_voxels_witness :
  let v := NDArray [2; 3; 4]%nat
             (fun idx => match idx with
                         | [i; j; k] => (100 * i + 10 * j + k)%nat
                         | _ => 0%nat
                         end) in
  exists r,
    NIFTI_getitem (fun _ => Ok v) (MkNIFTI (B := unit) None ["data/ct.nii"]) 0
      = Ok (Volume r) /\
    shape r = [4; 3; 2]%nat /\
    forall a b c, (a < 2)%nat -> (b < 3)%nat -> (c < 4)%nat ->
      item r [(4 - 1 - c)%nat; (3 - 1 - b)%nat; a] = item v [a; b; c].
Proof.
  intros v.
  apply (NIFTI_getitem_keeps_voxels nat unit (fun _ => Ok v) ["data/ct.nii"] 0
           "data/ct.nii" v 2 3 4); reflexivity.
Defined.

Lemma NIFTI_init_listing_witness :
  NIFTI_init (voxel := nat) (out := unit)
    (fun _ => ["b.nii.gz"; "readme.txt"; "a.nii"]) "data" None
  = NIFTI_init (fun _ => ["readme.txt"; "b.nii.gz"; "a.nii"]) "data" None.
Proof.
  apply (NIFTI_init_listing nat unit
           (fun _ => ["b.nii.gz"; "readme.txt"; "a.nii"])
           (fun _ => ["readme.txt"; "b.nii.gz"; "a.nii"]) "data" None).
  apply perm_swap.
Defined.

Lemma NIFTI_getitem_in_range_witness :
  let self := NIFTI_init (voxel := nat) (out := unit)
                (fun _ => ["b.nii.gz"; "readme.txt"; "a.nii"]) "data" None in
  exists f,
    In f ["b.nii.gz"; "readme.txt"; "a.nii"] /\ is_nifti f = true /\
    Py.getitem (filenames self) 1 = Ok (Py.os_path_join "data" f) /\
    forall e, (fun _ : string => @Raise (ndarray nat) ValueError)
                (Py.os_path_join "data" f) = Raise e ->
              NIFTI_getitem (fun _ => Raise ValueError) self 1 = Raise e.
Proof.
  intros self.
  apply (NIFTI_getitem_in_range nat unit (fun _ => Raise ValueError)
           (fun _ => ["b.nii.gz"; "readme.txt"; "a.nii"]) "data" None 1).
  simpl. lia.
Defined.
